(** * WellFix API: the job status state machine

    A shallow embedding of
      - [wellfix_api/models/enums.py]          (the [JobStatus] enumeration),
      - [wellfix_api/models/user.py]           (the [UserRole] enumeration),
      - [wellfix_api/core/status_validator.py] (the three transition tables,
        [is_transition_allowed] and [get_allowed_transitions]),
      - [wellfix_api/crud/crud_job.py] and
        [wellfix_api/api/v1/endpoints/jobs.py] (the status-update, cancel,
        assignment, notes and details operations, and the checks of the
        quote update),
      - [wellfix_api/core/dependencies.py] ([require_admin] and
        [get_user_by_id]),
    followed by the properties of the state machine and of the
    endpoints.

    Python dictionaries are finite maps ([gmap]), Python sets are finite
    sets ([gset]); an [HTTPException] raised by an endpoint is a value of
    the result type. *)

From Stdlib Require Import ZArith.
From stdpp Require Import base decidable countable finite gmap strings list.

Local Open Scope string_scope.

(* ===================================================================== *)
(** ** Enumerations *)
(* ===================================================================== *)

(** [class JobStatus(str, Enum)], members in the order of their definition. *)
Inductive JobStatus : Set :=
  | PENDING_ASSIGNMENT
  | ASSIGNED
  | PENDING_VISIT
  | PENDING_PICKUP_FOR_LAB
  | IN_TRANSIT_TO_LAB
  | IN_TRANSIT_FROM_LAB
  | ON_SITE_DIAGNOSIS
  | LAB_DIAGNOSIS
  | ESCALATED_TO_LAB
  | PENDING_QUOTE_APPROVAL
  | REPAIR_IN_PROGRESS_LAB
  | REPAIR_IN_PROGRESS_ON_SITE
  | PENDING_RETURN_DELIVERY
  | PENDING_PAYMENT
  | COMPLETED
  | CANCELLED.

(** [class UserRole(str, Enum)]. *)
Inductive UserRole : Set :=
  | CUSTOMER
  | ENGINEER
  | ADMIN.

(** The string each member carries ([member.value]). *)
Definition JobStatus_value (s : JobStatus) : string :=
  match s with
  | PENDING_ASSIGNMENT => "PENDING_ASSIGNMENT"
  | ASSIGNED => "ASSIGNED"
  | PENDING_VISIT => "PENDING_VISIT"
  | PENDING_PICKUP_FOR_LAB => "PENDING_PICKUP_FOR_LAB"
  | IN_TRANSIT_TO_LAB => "IN_TRANSIT_TO_LAB"
  | IN_TRANSIT_FROM_LAB => "IN_TRANSIT_FROM_LAB"
  | ON_SITE_DIAGNOSIS => "ON_SITE_DIAGNOSIS"
  | LAB_DIAGNOSIS => "LAB_DIAGNOSIS"
  | ESCALATED_TO_LAB => "ESCALATED_TO_LAB"
  | PENDING_QUOTE_APPROVAL => "PENDING_QUOTE_APPROVAL"
  | REPAIR_IN_PROGRESS_LAB => "REPAIR_IN_PROGRESS_LAB"
  | REPAIR_IN_PROGRESS_ON_SITE => "REPAIR_IN_PROGRESS_ON_SITE"
  | PENDING_RETURN_DELIVERY => "PENDING_RETURN_DELIVERY"
  | PENDING_PAYMENT => "PENDING_PAYMENT"
  | COMPLETED => "COMPLETED"
  | CANCELLED => "CANCELLED"
  end.

Definition UserRole_value (r : UserRole) : string :=
  match r with
  | CUSTOMER => "CUSTOMER"
  | ENGINEER => "ENGINEER"
  | ADMIN => "ADMIN"
  end.

#[global] Instance JobStatus_eq_dec : EqDecision JobStatus.
Proof. solve_decision. Defined.

#[global] Instance UserRole_eq_dec : EqDecision UserRole.
Proof. solve_decision. Defined.

(** [list(JobStatus)]: iterating the enumeration class yields its members
    in definition order. *)
Definition JobStatus_members : list JobStatus :=
  [ PENDING_ASSIGNMENT; ASSIGNED; PENDING_VISIT; PENDING_PICKUP_FOR_LAB;
    IN_TRANSIT_TO_LAB; IN_TRANSIT_FROM_LAB;
    ON_SITE_DIAGNOSIS; LAB_DIAGNOSIS; ESCALATED_TO_LAB;
    PENDING_QUOTE_APPROVAL;
    REPAIR_IN_PROGRESS_LAB; REPAIR_IN_PROGRESS_ON_SITE;
    PENDING_RETURN_DELIVERY; PENDING_PAYMENT;
    COMPLETED; CANCELLED ].

Definition UserRole_members : list UserRole := [ CUSTOMER; ENGINEER; ADMIN ].

Lemma JobStatus_members_NoDup : NoDup JobStatus_members.
Proof. apply (bool_decide_unpack _). by vm_compute. Qed.

Lemma JobStatus_members_total (s : JobStatus) : s ∈ JobStatus_members.
Proof. apply (bool_decide_unpack _). by destruct s; vm_compute. Qed.

Lemma UserRole_members_NoDup : NoDup UserRole_members.
Proof. apply (bool_decide_unpack _). by vm_compute. Qed.

Lemma UserRole_members_total (r : UserRole) : r ∈ UserRole_members.
Proof. apply (bool_decide_unpack _). by destruct r; vm_compute. Qed.

#[global] Instance JobStatus_finite : Finite JobStatus :=
  {| enum := JobStatus_members;
     NoDup_enum := JobStatus_members_NoDup;
     elem_of_enum := JobStatus_members_total |}.

#[global] Instance UserRole_finite : Finite UserRole :=
  {| enum := UserRole_members;
     NoDup_enum := UserRole_members_NoDup;
     elem_of_enum := UserRole_members_total |}.

(** Keys of a [gmap] and elements of a [gset] are countable; both
    enumerations are, through their position in the member list. *)
#[global] Instance JobStatus_countable : Countable JobStatus := finite_countable.
#[global] Instance UserRole_countable : Countable UserRole := finite_countable.

(* ===================================================================== *)
(** ** The transition tables ([status_validator.py]) *)
(* ===================================================================== *)

(** [Dict[JobStatus, Set[JobStatus]]] *)
Abbreviation TransitionTable := (gmap JobStatus (gset JobStatus)).

(** A dictionary display [{k1: v1, k2: v2, ...}]. *)
Definition dict (entries : list (JobStatus * gset JobStatus)) : TransitionTable :=
  list_to_map entries.

(** Admin can perform all transitions. *)
Definition ADMIN_TRANSITIONS : TransitionTable := dict [
  (PENDING_ASSIGNMENT, {[ ASSIGNED; CANCELLED ]});
  (ASSIGNED, {[ PENDING_PICKUP_FOR_LAB; PENDING_VISIT; CANCELLED ]});
  (PENDING_PICKUP_FOR_LAB, {[ IN_TRANSIT_TO_LAB; CANCELLED; ON_SITE_DIAGNOSIS ]});
  (IN_TRANSIT_TO_LAB, {[ LAB_DIAGNOSIS; CANCELLED ]});
  (PENDING_VISIT, {[ ON_SITE_DIAGNOSIS; CANCELLED; ESCALATED_TO_LAB ]});
  (ON_SITE_DIAGNOSIS,
     {[ REPAIR_IN_PROGRESS_ON_SITE; PENDING_QUOTE_APPROVAL; CANCELLED;
        ESCALATED_TO_LAB ]});
  (LAB_DIAGNOSIS, {[ REPAIR_IN_PROGRESS_LAB; PENDING_QUOTE_APPROVAL; CANCELLED ]});
  (ESCALATED_TO_LAB, {[ PENDING_PICKUP_FOR_LAB; CANCELLED ]});
  (PENDING_QUOTE_APPROVAL,
     {[ REPAIR_IN_PROGRESS_LAB; REPAIR_IN_PROGRESS_ON_SITE; CANCELLED ]});
  (REPAIR_IN_PROGRESS_LAB, {[ PENDING_RETURN_DELIVERY; PENDING_PAYMENT; CANCELLED ]});
  (REPAIR_IN_PROGRESS_ON_SITE, {[ PENDING_PAYMENT; CANCELLED ]});
  (PENDING_RETURN_DELIVERY, {[ IN_TRANSIT_FROM_LAB; CANCELLED ]});
  (IN_TRANSIT_FROM_LAB, {[ PENDING_PAYMENT; CANCELLED ]});
  (PENDING_PAYMENT, {[ COMPLETED; CANCELLED ]});
  (* Terminal states - no transitions out *)
  (COMPLETED, ∅);
  (CANCELLED, ∅) ].

(** Engineer transitions are more limited. *)
Definition ENGINEER_TRANSITIONS : TransitionTable := dict [
  (* Engineers can't assign jobs or cancel jobs *)
  (PENDING_ASSIGNMENT, ∅);
  (ASSIGNED, {[ PENDING_PICKUP_FOR_LAB; PENDING_VISIT ]});
  (PENDING_PICKUP_FOR_LAB, {[ IN_TRANSIT_TO_LAB; ON_SITE_DIAGNOSIS ]});
  (IN_TRANSIT_TO_LAB, {[ LAB_DIAGNOSIS ]});
  (PENDING_VISIT, {[ ON_SITE_DIAGNOSIS; ESCALATED_TO_LAB ]});
  (ON_SITE_DIAGNOSIS,
     {[ REPAIR_IN_PROGRESS_ON_SITE; PENDING_QUOTE_APPROVAL; ESCALATED_TO_LAB ]});
  (LAB_DIAGNOSIS, {[ REPAIR_IN_PROGRESS_LAB; PENDING_QUOTE_APPROVAL ]});
  (ESCALATED_TO_LAB, {[ PENDING_PICKUP_FOR_LAB ]});
  (* Engineers can't directly approve quotes *)
  (PENDING_QUOTE_APPROVAL, ∅);
  (REPAIR_IN_PROGRESS_LAB, {[ PENDING_RETURN_DELIVERY; PENDING_PAYMENT ]});
  (REPAIR_IN_PROGRESS_ON_SITE, {[ PENDING_PAYMENT ]});
  (PENDING_RETURN_DELIVERY, {[ IN_TRANSIT_FROM_LAB ]});
  (IN_TRANSIT_FROM_LAB, {[ PENDING_PAYMENT ]});
  (PENDING_PAYMENT, {[ COMPLETED ]});
  (* Terminal states - no transitions out *)
  (COMPLETED, ∅);
  (CANCELLED, ∅) ].

(** Customer transitions are very limited. *)
Definition CUSTOMER_TRANSITIONS : TransitionTable := dict [
  (* Customers can only cancel jobs and approve quotes *)
  (PENDING_ASSIGNMENT, {[ CANCELLED ]});
  (ASSIGNED, {[ CANCELLED ]});
  (PENDING_PICKUP_FOR_LAB, {[ CANCELLED ]});
  (PENDING_VISIT, {[ CANCELLED ]});
  (PENDING_QUOTE_APPROVAL,
     {[ REPAIR_IN_PROGRESS_LAB; REPAIR_IN_PROGRESS_ON_SITE; CANCELLED ]});
  (* Terminal states and all other states - no transitions *)
  (IN_TRANSIT_TO_LAB, ∅);
  (LAB_DIAGNOSIS, ∅);
  (ON_SITE_DIAGNOSIS, ∅);
  (ESCALATED_TO_LAB, ∅);
  (REPAIR_IN_PROGRESS_LAB, ∅);
  (REPAIR_IN_PROGRESS_ON_SITE, ∅);
  (PENDING_RETURN_DELIVERY, ∅);
  (IN_TRANSIT_FROM_LAB, ∅);
  (PENDING_PAYMENT, ∅);
  (COMPLETED, ∅);
  (CANCELLED, ∅) ].

(* ===================================================================== *)
(** ** The validator *)
(* ===================================================================== *)

(** What a caller can pass as the role.  The parameter is annotated
    [UserRole], but nothing checks it, and the validator's own tests pass a
    plain string: a member of the enumeration, any string, or an object of
    another type (such as [None]). *)
Inductive RoleValue : Set :=
  | Member (r : UserRole)
  | Str (s : string)
  | OtherObject.

(** [user_role == UserRole.X].  [UserRole] mixes in [str], so a member
    equals a plain string exactly when the string is the member's value;
    an object of another type equals no member. *)
Definition role_eq (user_role : RoleValue) (member : UserRole) : bool :=
  match user_role with
  | Member r => bool_decide (r = member)
  | Str s => bool_decide (s = UserRole_value member)
  | OtherObject => false
  end.

#[global] Instance RoleValue_eq_dec : EqDecision RoleValue.
Proof. solve_decision. Defined.

Definition is_transition_allowed
    (current_status new_status : JobStatus) (user_role : RoleValue) : bool :=
  (* No transition needed if status is the same *)
  if bool_decide (current_status = new_status) then true
  else
    (* Get the appropriate transition map based on user role *)
    match
      (if role_eq user_role ADMIN then Some ADMIN_TRANSITIONS
       else if role_eq user_role ENGINEER then Some ENGINEER_TRANSITIONS
       else if role_eq user_role CUSTOMER then Some CUSTOMER_TRANSITIONS
       else None)
    with
    | None => (* Unknown roles can't make transitions *) false
    | Some transitions =>
        let allowed_next_statuses : gset JobStatus :=
          default ∅ (transitions !! current_status) in
        bool_decide (new_status ∈ allowed_next_statuses)
    end.

Definition get_allowed_transitions
    (current_status : JobStatus) (role : RoleValue) : list JobStatus :=
  match
    (if role_eq role ADMIN then Some ADMIN_TRANSITIONS
     else if role_eq role ENGINEER then Some ENGINEER_TRANSITIONS
     else if role_eq role CUSTOMER then Some CUSTOMER_TRANSITIONS
     else None)
  with
  | None => (* Unknown roles don't have transitions *) []
  | Some transitions => elements (default ∅ (transitions !! current_status))
  end.

Example scenario_admin_assign :
  is_transition_allowed PENDING_ASSIGNMENT ASSIGNED (Member ADMIN) = true.
Proof. by vm_compute. Qed.

Example scenario_engineer_assign :
  is_transition_allowed PENDING_ASSIGNMENT ASSIGNED (Member ENGINEER) = false.
Proof. by vm_compute. Qed.

Example scenario_engineer_skip :
  is_transition_allowed ASSIGNED COMPLETED (Member ENGINEER) = false.
Proof. by vm_compute. Qed.

Example scenario_unknown_role :
  get_allowed_transitions PENDING_ASSIGNMENT (Str "UNKNOWN_ROLE") = [].
Proof. by vm_compute. Qed.

(* ===================================================================== *)
(** ** Persistent data ([models/user.py], [models/job.py]) *)
(* ===================================================================== *)

(** A row of [users]; [role] is a column of type [Enum(UserRole)], so a
    stored user always carries a member of the enumeration. *)
Record User : Set := mkUser {
  user_id : string;
  role : UserRole
}.

(** A row of [repair_jobs], with the columns the status-update and cancel
    operations read or write.  The other columns (laptop details, costs,
    payment status, schedule, timestamps) are carried along unchanged by
    both operations. *)
Record RepairJob : Set := mkRepairJob {
  id : Z;
  customer_id : string;
  engineer_id : option string;
  status : JobStatus;
  customer_consent_for_lab : bool;
  cancellation_reason : option string;
  engineer_notes : option string;
  admin_notes : option string
}.

(** A row of [job_status_updates] (the generated key and the timestamp
    default are left to the database). *)
Record JobStatusUpdate : Set := mkJobStatusUpdate {
  upd_job_id : Z;
  upd_user_id : string;
  previous_status : option JobStatus;
  new_status : JobStatus;
  notes : option string
}.

(** The database session: the three tables the operations touch.  New
    history rows are added at the end. *)
Record Db : Type := mkDb {
  repair_jobs : gmap Z RepairJob;
  users : gmap string User;
  job_status_updates : list JobStatusUpdate
}.

(** Python truthiness of an optional string: [None] and the empty string
    are false. *)
Definition truthy (s : option string) : bool :=
  match s with
  | None => false
  | Some t => negb (bool_decide (t = ""))
  end.

(* ===================================================================== *)
(** ** CRUD operations ([crud/crud_job.py]) *)
(* ===================================================================== *)

(** The line feed that separates two notes. *)
Definition newline : string := String (Ascii.ascii_of_nat 10) "".

(** Appending a bracketed timestamp and the note to a notes field: on a
    new line when the field already has text, as its whole content when it
    is still empty. *)
Definition append_note (field : option string) (ts note : string)
    : option string :=
  match field with
  | Some old =>
      if truthy field then Some (old ++ newline ++ "[" ++ ts ++ "] " ++ note)
      else Some ("[" ++ ts ++ "] " ++ note)
  | None => Some ("[" ++ ts ++ "] " ++ note)
  end.

(** The functions of [crud_job.py], under the names they have there. *)
Module crud_job.

Definition get_job (db : Db) (job_id : Z) : option RepairJob :=
  repair_jobs db !! job_id.

Definition record_status_update (db : Db) (job_id : Z)
    (previous : option JobStatus) (new : JobStatus)
    (user : string) (note : option string) : Db :=
  (* If it's the initial status, use the same status for previous *)
  let previous := match previous with None => new | Some p => p end in
  let status_update :=
    {| upd_job_id := job_id; upd_user_id := user;
       previous_status := Some previous; new_status := new;
       notes := note |} in
  {| repair_jobs := repair_jobs db; users := users db;
     job_status_updates := job_status_updates db ++ [status_update] |}.

Section Crud.

(** [datetime.now(timezone.utc).isoformat()] at the time of the call. *)
Variable now : string.

Definition update_job_status (db : Db) (job_id : Z)
    (new : JobStatus) (user : string) (note : option string)
    (extra_updates : gmap string bool) : Db * option RepairJob :=
  match get_job db job_id with
  | None => (db, None)
  | Some db_job =>
      let previous := status db_job in
      (* Update the status; apply any extra updates (the endpoint only
         ever passes the key of the boolean consent column) *)
      let consent :=
        match extra_updates !! "customer_consent_for_lab" with
        | Some v => v
        | None => customer_consent_for_lab db_job
        end in
      (* Add notes to the appropriate field based on user role *)
      let is_engineer :=
        match users db !! user with
        | Some u => bool_decide (role u = ENGINEER)
        | None => false
        end in
      let e_notes :=
        if truthy note && is_engineer
        then append_note (engineer_notes db_job) now (default "" note)
        else engineer_notes db_job in
      let a_notes :=
        if truthy note && negb is_engineer
        then append_note (admin_notes db_job) now (default "" note)
        else admin_notes db_job in
      let db_job' :=
        {| id := id db_job; customer_id := customer_id db_job;
           engineer_id := engineer_id db_job;
           status := new;
           customer_consent_for_lab := consent;
           cancellation_reason := cancellation_reason db_job;
           engineer_notes := e_notes; admin_notes := a_notes |} in
      let db' :=
        {| repair_jobs := <[job_id := db_job']> (repair_jobs db);
           users := users db;
           job_status_updates := job_status_updates db |} in
      (* Record the status update *)
      (record_status_update db' job_id (Some previous) new user note,
       Some db_job')
  end.

End Crud.

Definition cancel_job (db : Db) (job_id : Z) (user reason : string)
    : Db * option RepairJob :=
  match get_job db job_id with
  | None => (db, None)
  | Some db_job =>
      let previous := status db_job in
      let db_job' :=
        {| id := id db_job; customer_id := customer_id db_job;
           engineer_id := engineer_id db_job;
           status := CANCELLED;
           customer_consent_for_lab := customer_consent_for_lab db_job;
           cancellation_reason := Some reason;
           engineer_notes := engineer_notes db_job;
           admin_notes := admin_notes db_job |} in
      let db' :=
        {| repair_jobs := <[job_id := db_job']> (repair_jobs db);
           users := users db;
           job_status_updates := job_status_updates db |} in
      (record_status_update db' job_id (Some previous) CANCELLED user
         (Some ("Job cancelled: " ++ reason)),
       Some db_job')
  end.

(** [assign_engineer]: sets the engineer column to what was passed and
    flips the status between PENDING_ASSIGNMENT and ASSIGNED; a history
    row is written only when the status changed.  The conditions test the
    truthiness of [engineer_id], so the empty string counts as no
    engineer. *)
Definition assign_engineer (db : Db) (job_id : Z)
    (engineer : option string) (admin_id : string) : Db * option RepairJob :=
  match get_job db job_id with
  | None => (db, None)
  | Some db_job =>
      let previous := status db_job in
      (* Update the job status if appropriate *)
      let new :=
        if truthy engineer && bool_decide (status db_job = PENDING_ASSIGNMENT)
        then ASSIGNED
        else if negb (truthy engineer) && bool_decide (status db_job = ASSIGNED)
        then PENDING_ASSIGNMENT
        else status db_job in
      let db_job' :=
        {| id := id db_job; customer_id := customer_id db_job;
           engineer_id := engineer;
           status := new;
           customer_consent_for_lab := customer_consent_for_lab db_job;
           cancellation_reason := cancellation_reason db_job;
           engineer_notes := engineer_notes db_job;
           admin_notes := admin_notes db_job |} in
      let db' :=
        {| repair_jobs := <[job_id := db_job']> (repair_jobs db);
           users := users db;
           job_status_updates := job_status_updates db |} in
      (* Record the status change if it happened *)
      if bool_decide (new ≠ previous) then
        (record_status_update db' job_id (Some previous) new admin_id
           (Some (if truthy engineer then "Assigned to engineer"
                  else "Unassigned engineer")),
         Some db_job')
      else (db', Some db_job')
  end.

Section Notes.

(** [datetime.now(timezone.utc).isoformat()] at the time of the call. *)
Variable now : string.

Definition add_job_notes (db : Db) (job_id : Z) (user : string)
    (note : string) : Db * option RepairJob :=
  match get_job db job_id with
  | None => (db, None)
  | Some db_job =>
      if negb (truthy (Some note)) then (db, None)
      else
        (* Add notes to the appropriate field based on user role *)
        match users db !! user with
        | None => (db, None)
        | Some u =>
            let db_job' :=
              if bool_decide (role u = ENGINEER) then
                {| id := id db_job; customer_id := customer_id db_job;
                   engineer_id := engineer_id db_job;
                   status := status db_job;
                   customer_consent_for_lab := customer_consent_for_lab db_job;
                   cancellation_reason := cancellation_reason db_job;
                   engineer_notes := append_note (engineer_notes db_job) now note;
                   admin_notes := admin_notes db_job |}
              else (* Admin or otherwise *)
                {| id := id db_job; customer_id := customer_id db_job;
                   engineer_id := engineer_id db_job;
                   status := status db_job;
                   customer_consent_for_lab := customer_consent_for_lab db_job;
                   cancellation_reason := cancellation_reason db_job;
                   engineer_notes := engineer_notes db_job;
                   admin_notes := append_note (admin_notes db_job) now note |} in
            ({| repair_jobs := <[job_id := db_job']> (repair_jobs db);
                users := users db;
                job_status_updates := job_status_updates db |},
             Some db_job')
        end
  end.

End Notes.

End crud_job.

(* ===================================================================== *)
(** ** Endpoints ([api/v1/endpoints/jobs.py]) *)
(* ===================================================================== *)

(** [fastapi.HTTPException(status_code=..., detail=...)] *)
Record HTTPException : Set := mkHTTPException {
  status_code : Z;
  detail : string
}.

Definition HTTP_403_FORBIDDEN : Z := 403.
Definition HTTP_404_NOT_FOUND : Z := 404.
Definition HTTP_422_UNPROCESSABLE_ENTITY : Z := 422.

(** What a call of an endpoint does: it raises before anything is written,
    or it returns the job with the database as the CRUD call left it. *)
Inductive Response : Type :=
  | Raise (e : HTTPException)
  | Return (db : Db) (job : option RepairJob).

(** [schemas.job.JobStatusUpdateCreate], the body of a status update. *)
Record JobStatusUpdateCreate : Set := mkJobStatusUpdateCreate {
  su_status : JobStatus;
  su_notes : option string;
  su_customer_consent_for_lab : option bool
}.

(** [schemas.job.JobCancellation], the body of a cancellation. *)
Record JobCancellation : Set := mkJobCancellation {
  reason : string
}.

Definition consent_required_detail : string :=
  "Customer consent required for lab-related transitions".

Section Endpoints.

(** How an f-string renders a member of a [str]-mixin enumeration depends
    on the interpreter version (the value, or the qualified member name),
    so the rendering is left open. *)
Variable render_status : JobStatus -> string.
Variable render_role : UserRole -> string.

(** The timestamp the CRUD layer reads while the request is served. *)
Variable now : string.

Definition invalid_transition_detail
    (current new : JobStatus) (r : UserRole) : string :=
  "Invalid status transition from " ++ render_status current ++
  " to " ++ render_status new ++ " for " ++ render_role r.

Definition update_job_status (status_update : JobStatusUpdateCreate)
    (job_id : Z) (db : Db) (current_user : User) : Response :=
  (* Only Engineers and Admins can update status *)
  if negb (bool_decide (role current_user ∈ [ENGINEER; ADMIN])) then
    Raise {| status_code := HTTP_403_FORBIDDEN;
             detail := "Only Engineers and Admins can update job status" |}
  else
  (* Get the job *)
  match crud_job.get_job db job_id with
  | None =>
      Raise {| status_code := HTTP_404_NOT_FOUND; detail := "Job not found" |}
  | Some job =>
  (* Check authorization *)
  if bool_decide (role current_user = ENGINEER)
     && bool_decide (engineer_id job ≠ Some (user_id current_user)) then
    Raise {| status_code := HTTP_403_FORBIDDEN;
             detail := "Engineers can only update status for jobs assigned to them" |}
  else
  (* Validate status transition *)
  if negb (is_transition_allowed (status job) (su_status status_update)
             (Member (role current_user))) then
    Raise {| status_code := HTTP_422_UNPROCESSABLE_ENTITY;
             detail := invalid_transition_detail (status job)
                         (su_status status_update) (role current_user) |}
  else
  (* If transitioning to lab-related statuses with consent flag provided *)
  let extra_updates : gmap string bool :=
    match su_customer_consent_for_lab status_update with
    | Some flag =>
        if bool_decide (su_status status_update
                          ∈ [PENDING_PICKUP_FOR_LAB; ESCALATED_TO_LAB])
        then {[ "customer_consent_for_lab" := flag ]}
        else (* Ignore consent flag for non-lab-related transitions *) ∅
    | None => ∅
    end in
  (* If transitioning to certain statuses, customer_consent_for_lab must be True *)
  if bool_decide (su_status status_update ∈ [IN_TRANSIT_TO_LAB])
     && negb (customer_consent_for_lab job) then
    Raise {| status_code := HTTP_422_UNPROCESSABLE_ENTITY;
             detail := consent_required_detail |}
  else
  (* Update the job status *)
  let '(db', updated_job) :=
    crud_job.update_job_status now db job_id (su_status status_update)
      (user_id current_user) (su_notes status_update) extra_updates in
  Return db' updated_job
  end.

Definition cancel_job (cancellation_data : JobCancellation)
    (job_id : Z) (db : Db) (current_user : User) : Response :=
  (* Get the job *)
  match crud_job.get_job db job_id with
  | None =>
      Raise {| status_code := HTTP_404_NOT_FOUND; detail := "Job not found" |}
  | Some job =>
  (* Check authorization *)
  if bool_decide (role current_user = CUSTOMER)
     && bool_decide (customer_id job ≠ user_id current_user) then
    Raise {| status_code := HTTP_403_FORBIDDEN;
             detail := "Customers can only cancel their own jobs" |}
  else if bool_decide (role current_user = ENGINEER) then
    Raise {| status_code := HTTP_403_FORBIDDEN;
             detail := "Engineers cannot cancel jobs" |}
  else
  (* Check if job can be cancelled *)
  if bool_decide (status job ∈ [COMPLETED; CANCELLED]) then
    Raise {| status_code := HTTP_422_UNPROCESSABLE_ENTITY;
             detail := "Cannot cancel job in " ++ render_status (status job)
                       ++ " status" |}
  else
  (* Cancel the job *)
  let '(db', cancelled_job) :=
    crud_job.cancel_job db job_id (user_id current_user)
      (reason cancellation_data) in
  Return db' cancelled_job
  end.

End Endpoints.

(* ===================================================================== *)
(** ** More endpoints of [jobs.py], and the dependencies they use *)
(* ===================================================================== *)

(** [schemas.job.JobAssignment].  The field is declared
    [Optional[Union[int, str]]]; the model takes the requests whose
    identifier is a string or null (user keys are strings of 36
    characters).  An integer identifier is left out: what it is compared
    with and stored as in the string column is the database engine's
    business.  The code tests the identifier for truthiness only, and
    there the integer 0 counts like the empty string. *)
Record JobAssignment : Set := mkJobAssignment {
  ja_engineer_id : option string
}.

(** [schemas.job.JobNoteCreate] *)
Record JobNoteCreate : Set := mkJobNoteCreate {
  jn_notes : string
}.

(** [schemas.job.JobQuoteUpdate].  A cost is a Python float; the checks
    of the endpoint only test whether a cost is given, so the type of the
    floats is left open. *)
Record JobQuoteUpdate (float : Type) : Type := mkJobQuoteUpdate {
  jq_estimated_cost : option float;
  jq_final_cost : option float;
  jq_notes : option string
}.

Arguments mkJobQuoteUpdate {float} _ _ _.
Arguments jq_estimated_cost {float} _.
Arguments jq_final_cost {float} _.
Arguments jq_notes {float} _.

(** [core.dependencies.require_admin] *)
Definition require_admin (current_user : User) : HTTPException + User :=
  if bool_decide (role current_user ≠ ADMIN) then
    inl {| status_code := HTTP_403_FORBIDDEN;
           detail := "This action requires admin privileges" |}
  else inr current_user.

(** A row of [users] as [core.dependencies.get_user_by_id] reads it: the
    user and the nullable [is_active] column. *)
Record UserRow : Set := mkUserRow {
  row_user : User;
  is_active : option bool
}.

Definition HTTP_401_UNAUTHORIZED : Z := 401.

(** [error_messages.INVALID_CREDENTIALS] and [INACTIVE_USER] *)
Definition INVALID_CREDENTIALS : string := "Invalid credentials".
Definition INACTIVE_USER : string := "Inactive user account".

Definition credentials_exception : HTTPException :=
  {| status_code := HTTP_401_UNAUTHORIZED; detail := INVALID_CREDENTIALS |}.

(** What the query [db.query(User).filter(User.id == user_id).first()] of
    [get_user_by_id] does: it raises (the driver cannot bind the value it
    is given, the connection is lost), or it returns the first row, or
    [None].  The function is declared for a [uuid.UUID] while the column
    holds strings, so which row a value selects, if the driver takes the
    value at all, is the database's business: the function is modelled
    from the outcome of its query on. *)
Inductive QueryOutcome : Set :=
  | QueryRaises
  | QueryReturns (first : option UserRow).

(** What is raised inside a [try] block: an [HTTPException], or another
    exception. *)
Inductive Raised : Set :=
  | RaisedHTTP (e : HTTPException)
  | RaisedOther.

(** [core.dependencies.get_user_by_id].  The whole body sits in a [try]
    whose handler catches [Exception] and raises the credentials
    exception, so it catches an exception of the query and also the two
    exceptions the body raises itself.  (When no row is found the body
    reads all users for the log before it raises; if that read raises, the
    handler answers the same.) *)
Definition get_user_by_id (query : QueryOutcome) : HTTPException + User :=
  let body : Raised + User :=
    match query with
    | QueryRaises => inl RaisedOther
    | QueryReturns None => inl (RaisedHTTP credentials_exception)
    | QueryReturns (Some user) =>
        (* Check if user is active *)
        if negb (default false (is_active user)) then
          inl (RaisedHTTP {| status_code := HTTP_403_FORBIDDEN;
                             detail := INACTIVE_USER |})
        else inr (row_user user)
    end in
  match body with
  | inl _ => inl credentials_exception
  | inr user => inr user
  end.

Section MoreEndpoints.

Variable render_status : JobStatus -> string.

(** The timestamp the CRUD layer reads while the request is served. *)
Variable now : string.

Definition get_job_details (job_id : Z) (db : Db) (current_user : User)
    : HTTPException + RepairJob :=
  match crud_job.get_job db job_id with
  | None =>
      inl {| status_code := HTTP_404_NOT_FOUND; detail := "Job not found" |}
  | Some job =>
  (* Check permissions based on role *)
  if bool_decide (role current_user = ADMIN) then inr job
  else if bool_decide (role current_user = ENGINEER) then
    if bool_decide (engineer_id job ≠ Some (user_id current_user)) then
      inl {| status_code := HTTP_403_FORBIDDEN;
             detail := "Not authorized to access this job" |}
    else inr job
  else (* CUSTOMER *)
    if bool_decide (customer_id job ≠ user_id current_user) then
      inl {| status_code := HTTP_403_FORBIDDEN;
             detail := "Not authorized to access this job" |}
    else inr job
  end.

Definition add_job_notes (note_data : JobNoteCreate)
    (job_id : Z) (db : Db) (current_user : User) : Response :=
  (* Only Engineers and Admins can add notes *)
  if negb (bool_decide (role current_user ∈ [ENGINEER; ADMIN])) then
    Raise {| status_code := HTTP_403_FORBIDDEN;
             detail := "Only Engineers and Admins can add notes to jobs" |}
  else
  match crud_job.get_job db job_id with
  | None =>
      Raise {| status_code := HTTP_404_NOT_FOUND; detail := "Job not found" |}
  | Some job =>
  if bool_decide (role current_user = ENGINEER)
     && bool_decide (engineer_id job ≠ Some (user_id current_user)) then
    Raise {| status_code := HTTP_403_FORBIDDEN;
             detail := "Engineers can only add notes to jobs assigned to them" |}
  else
  let '(db', updated_job) :=
    crud_job.add_job_notes now db job_id (user_id current_user)
      (jn_notes note_data) in
  Return db' updated_job
  end.

(** [assign_engineer_to_job]; its user comes through [require_admin]. *)
Definition assign_engineer_to_job (assignment_data : JobAssignment)
    (job_id : Z) (db : Db) (current_user : User) : Response :=
  match require_admin current_user with
  | inl e => Raise e
  | inr current_user =>
  match crud_job.get_job db job_id with
  | None =>
      Raise {| status_code := HTTP_404_NOT_FOUND; detail := "Job not found" |}
  | Some job =>
  (* Check if job can be assigned/unassigned *)
  if bool_decide (status job ∈ [COMPLETED; CANCELLED]) then
    Raise {| status_code := HTTP_422_UNPROCESSABLE_ENTITY;
             detail := "Cannot modify assignment for job in "
                       ++ render_status (status job) ++ " status" |}
  else
  (* If assigning an engineer, verify they exist and have ENGINEER role *)
  let engineer := ja_engineer_id assignment_data in
  match
    (if truthy engineer then
       match users db !! default "" engineer with
       | None =>
           Some {| status_code := HTTP_404_NOT_FOUND;
                   detail := "Engineer not found" |}
       | Some u =>
           if bool_decide (role u ≠ ENGINEER) then
             Some {| status_code := HTTP_422_UNPROCESSABLE_ENTITY;
                     detail := "User must have ENGINEER role to be assigned to jobs" |}
           else None
       end
     else None)
  with
  | Some e => Raise e
  | None =>
      let '(db', updated_job) :=
        crud_job.assign_engineer db job_id engineer (user_id current_user) in
      Return db' updated_job
  end
  end
  end.

(** The checks of [update_job_quote], up to its call of the CRUD layer:
    the exception the endpoint raises, or [None] when it goes on to store
    the costs. *)
Definition update_job_quote_checks {float : Type}
    (quote_data : JobQuoteUpdate float)
    (job_id : Z) (db : Db) (current_user : User) : option HTTPException :=
  (* Only Engineers and Admins can update quotes *)
  if negb (bool_decide (role current_user ∈ [ENGINEER; ADMIN])) then
    Some {| status_code := HTTP_403_FORBIDDEN;
            detail := "Only Engineers and Admins can update job quotes" |}
  else
  match crud_job.get_job db job_id with
  | None =>
      Some {| status_code := HTTP_404_NOT_FOUND; detail := "Job not found" |}
  | Some job =>
  if bool_decide (role current_user = ENGINEER)
     && bool_decide (engineer_id job ≠ Some (user_id current_user)) then
    Some {| status_code := HTTP_403_FORBIDDEN;
            detail := "Engineers can only update quotes for jobs assigned to them" |}
  else
  (* Estimated cost can be set during diagnosis or later stages *)
  if bool_decide (is_Some (jq_estimated_cost quote_data))
     && negb (bool_decide (status job ∈
                [LAB_DIAGNOSIS; ON_SITE_DIAGNOSIS; PENDING_QUOTE_APPROVAL;
                 REPAIR_IN_PROGRESS_LAB; REPAIR_IN_PROGRESS_ON_SITE])) then
    Some {| status_code := HTTP_422_UNPROCESSABLE_ENTITY;
            detail := "Estimated cost can only be set during diagnosis or repair" |}
  else
  (* Final cost should only be set near completion *)
  if bool_decide (is_Some (jq_final_cost quote_data))
     && negb (bool_decide (status job ∈
                [COMPLETED; PENDING_PAYMENT; REPAIR_IN_PROGRESS_LAB;
                 REPAIR_IN_PROGRESS_ON_SITE; PENDING_RETURN_DELIVERY;
                 IN_TRANSIT_FROM_LAB])) then
    Some {| status_code := HTTP_422_UNPROCESSABLE_ENTITY;
            detail := "Final cost can only be set during final stages of repair" |}
  else None
  end.

End MoreEndpoints.

(* ===================================================================== *)
(** ** Paths through the transition tables *)
(* ===================================================================== *)

(** One step a role value may take: the validator allows it. *)
Definition transition (role : RoleValue) (s t : JobStatus) : Prop :=
  is_transition_allowed s t role = true.

(** Statuses a role value can reach in any number of steps. *)
Definition reachable (role : RoleValue) : relation JobStatus :=
  rtc (transition role).

(* ===================================================================== *)
(** ** A small database to run the endpoints on *)
(* ===================================================================== *)

Module Sample.

Definition admin : User := {| user_id := "u-admin"; role := ADMIN |}.
Definition engineer : User := {| user_id := "u-eng"; role := ENGINEER |}.
Definition customer : User := {| user_id := "u-cust"; role := CUSTOMER |}.

(** Job 1 waits for pickup, and the customer has not consented to lab
    work. *)
Definition job_pickup : RepairJob :=
  {| id := 1; customer_id := "u-cust"; engineer_id := Some "u-eng";
     status := PENDING_PICKUP_FOR_LAB; customer_consent_for_lab := false;
     cancellation_reason := None;
     engineer_notes := None; admin_notes := None |}.

(** Job 2 is being repaired in the lab. *)
Definition job_in_repair : RepairJob :=
  {| id := 2; customer_id := "u-cust"; engineer_id := Some "u-eng";
     status := REPAIR_IN_PROGRESS_LAB; customer_consent_for_lab := true;
     cancellation_reason := None;
     engineer_notes := None; admin_notes := None |}.

(** Job 3 has just been assigned. *)
Definition job_assigned : RepairJob :=
  {| id := 3; customer_id := "u-cust"; engineer_id := Some "u-eng";
     status := ASSIGNED; customer_consent_for_lab := false;
     cancellation_reason := None;
     engineer_notes := None; admin_notes := None |}.

Definition db : Db :=
  {| repair_jobs :=
       <[1%Z := job_pickup]> (<[2%Z := job_in_repair]>
         (<[3%Z := job_assigned]> ∅));
     users :=
       <["u-admin" := admin]> (<["u-eng" := engineer]>
         (<["u-cust" := customer]> ∅));
     job_status_updates := [] |}.

Definition to_lab : JobStatusUpdateCreate :=
  {| su_status := IN_TRANSIT_TO_LAB; su_notes := None;
     su_customer_consent_for_lab := Some true |}.

Definition changed_my_mind : JobCancellation :=
  {| reason := "Changed my mind" |}.

Definition timestamp : string := "2025-01-01T00:00:00+00:00".

End Sample.

(** More rows to run the other endpoints on. *)
Module MoreSamples.

(** Job 7 has just been filed: no engineer yet. *)
Definition job_new : RepairJob :=
  {| id := 7; customer_id := "u-cust"; engineer_id := None;
     status := PENDING_ASSIGNMENT; customer_consent_for_lab := false;
     cancellation_reason := None;
     engineer_notes := None; admin_notes := None |}.

(** Job 8 is finished. *)
Definition job_done : RepairJob :=
  {| id := 8; customer_id := "u-cust"; engineer_id := Some "u-eng";
     status := COMPLETED; customer_consent_for_lab := false;
     cancellation_reason := None;
     engineer_notes := None; admin_notes := None |}.

Definition db : Db :=
  {| repair_jobs :=
       <[7%Z := job_new]> (<[8%Z := job_done]> (repair_jobs Sample.db));
     users := users Sample.db;
     job_status_updates := [] |}.

Definition mark_assigned : JobStatusUpdateCreate :=
  {| su_status := ASSIGNED; su_notes := None;
     su_customer_consent_for_lab := None |}.

(** Rows the query of [core.dependencies.get_user_by_id] may return: an
    engineer whose account was switched off, and a customer whose
    [is_active] column is null. *)
Definition switched_off : UserRow :=
  {| row_user := Sample.engineer; is_active := Some false |}.

Definition never_set : UserRow :=
  {| row_user := Sample.customer; is_active := None |}.

End MoreSamples.

(* ===================================================================== *)
(** * Properties of the validator *)
(* ===================================================================== *)

(** Goals about concrete statuses and roles are settled by running the
    validator. *)
Ltac run_validator := vm_compute; try reflexivity; try discriminate.

(** Membership in a concrete list of statuses, by evaluation. *)
Ltac listed := apply (bool_decide_unpack _); vm_compute; exact I.

Lemma role_eq_Member (r member : UserRole) :
  role_eq (Member r) member = bool_decide (r = member).
Proof. reflexivity. Qed.

(** For a member of [UserRole] the allowed list is the entry of that
    role's table. *)
Lemma get_allowed_transitions_Member (r : UserRole) (s : JobStatus) :
  get_allowed_transitions s (Member r)
  = elements (default ∅ (match r with
                         | ADMIN => ADMIN_TRANSITIONS
                         | ENGINEER => ENGINEER_TRANSITIONS
                         | CUSTOMER => CUSTOMER_TRANSITIONS
                         end !! s)).
Proof. by destruct r. Qed.

(** A role value that is neither a member nor the value of a member
    compares unequal to all three members. *)
Lemma role_eq_unrecognized (role : RoleValue) :
  (∀ r : UserRole, role ≠ Member r ∧ role ≠ Str (UserRole_value r)) →
  ∀ member, role_eq role member = false.
Proof.
  intros Hun member. destruct role as [r | str | ]; simpl; [| | done].
  - destruct (Hun r) as [H _]. by destruct H.
  - apply bool_decide_eq_false_2. intros ->.
    destruct (Hun member) as [_ H]. by destruct H.
Qed.

(** Both functions read the same entry of the same table: whatever the
    role value, a status other than the current one is listed exactly when
    the transition to it is allowed. *)
Lemma listed_iff_allowed (role : RoleValue) (current target : JobStatus) :
  target ≠ current →
  target ∈ get_allowed_transitions current role
  ↔ is_transition_allowed current target role = true.
Proof.
  intros Hne. unfold get_allowed_transitions, is_transition_allowed.
  rewrite bool_decide_eq_false_2 by congruence.
  destruct (if role_eq role ADMIN then _ else _) as [transitions | ].
  - by rewrite elem_of_elements, bool_decide_eq_true.
  - split; [intros H; inversion H | discriminate].
Qed.

(** No table lists a status among its own successors, so the allowed
    list never contains the current status. *)
Lemma current_not_listed (role : RoleValue) (current : JobStatus) :
  current ∉ get_allowed_transitions current role.
Proof.
  unfold get_allowed_transitions.
  destruct (role_eq role ADMIN);
    [| destruct (role_eq role ENGINEER);
       [| destruct (role_eq role CUSTOMER); [| apply not_elem_of_nil]]];
    destruct current; apply (bool_decide_unpack _); vm_compute; exact I.
Qed.

(** C1. For each of the roles ADMIN, ENGINEER and CUSTOMER, every current
    status and every target status other than the current one, the target
    is in [get_allowed_transitions current role] if and only if
    [is_transition_allowed current target role] returns true. *)
Theorem table_enumeration_consistency
    (r : UserRole) (current target : JobStatus) :
  target ≠ current →
  target ∈ get_allowed_transitions current (Member r)
  ↔ is_transition_allowed current target (Member r) = true.
Proof. apply listed_iff_allowed. Qed.

Lemma table_enumeration_consistency_witness :
  CANCELLED ≠ PENDING_PAYMENT
  ∧ (CANCELLED ∈ get_allowed_transitions PENDING_PAYMENT (Member ADMIN)
     ↔ is_transition_allowed PENDING_PAYMENT CANCELLED (Member ADMIN) = true).
Proof.
  split; [discriminate |].
  apply (table_enumeration_consistency ADMIN PENDING_PAYMENT CANCELLED).
  discriminate.
Defined.

(** C2. Terminal absorption: for each role and every target status that is
    neither COMPLETED nor CANCELLED, the validator denies the transition
    out of COMPLETED and out of CANCELLED; and no role's table gives
    either status a successor. *)
Theorem terminal_absorption (r : UserRole) (s2 : JobStatus) :
  s2 ≠ COMPLETED → s2 ≠ CANCELLED →
  is_transition_allowed COMPLETED s2 (Member r) = false
  ∧ is_transition_allowed CANCELLED s2 (Member r) = false
  ∧ get_allowed_transitions COMPLETED (Member r) = []
  ∧ get_allowed_transitions CANCELLED (Member r) = [].
Proof.
  intros Hc Hx.
  destruct r, s2; try (by destruct Hc); try (by destruct Hx);
    repeat split; run_validator.
Qed.

Lemma terminal_absorption_witness :
  is_transition_allowed COMPLETED PENDING_PAYMENT (Member ADMIN) = false
  ∧ is_transition_allowed CANCELLED PENDING_PAYMENT (Member ADMIN) = false
  ∧ get_allowed_transitions COMPLETED (Member ADMIN) = []
  ∧ get_allowed_transitions CANCELLED (Member ADMIN) = [].
Proof. apply (terminal_absorption ADMIN PENDING_PAYMENT); discriminate. Defined.

(** C3. Reflexivity: for every status and every role value whatsoever,
    recognised or not, the validator allows keeping the status. *)
Theorem self_transition_allowed (s : JobStatus) (role : RoleValue) :
  is_transition_allowed s s role = true.
Proof. unfold is_transition_allowed. by rewrite bool_decide_eq_true_2. Qed.

(** C4. Unknown role denial: for a role value that is none of ADMIN,
    ENGINEER, CUSTOMER (neither a member nor a member's string) and two
    different statuses, the validator denies the transition, and the
    allowed list is empty. *)
Theorem unknown_role_denied (role : RoleValue) (s1 s2 : JobStatus) :
  (∀ r : UserRole, role ≠ Member r ∧ role ≠ Str (UserRole_value r)) →
  s1 ≠ s2 →
  is_transition_allowed s1 s2 role = false
  ∧ get_allowed_transitions s1 role = [].
Proof.
  intros Hun Hne. unfold is_transition_allowed, get_allowed_transitions.
  rewrite !(role_eq_unrecognized role Hun).
  by rewrite bool_decide_eq_false_2.
Qed.

Lemma unknown_role_denied_witness :
  is_transition_allowed PENDING_ASSIGNMENT ASSIGNED (Str "UNKNOWN_ROLE") = false
  ∧ get_allowed_transitions PENDING_ASSIGNMENT (Str "UNKNOWN_ROLE") = [].
Proof.
  apply (unknown_role_denied (Str "UNKNOWN_ROLE") PENDING_ASSIGNMENT ASSIGNED).
  - intros r. split; [discriminate | destruct r; discriminate].
  - discriminate.
Defined.

(** C5. For role CUSTOMER and two different statuses, the validator allows
    the transition exactly when it is a cancellation from one of the five
    early states, or the approval of a quote (from PENDING_QUOTE_APPROVAL
    to one of the two repair states); every other pair is denied. *)
Theorem customer_transitions_exact (current target : JobStatus) :
  current ≠ target →
  is_transition_allowed current target (Member CUSTOMER) = true
  ↔ (target = CANCELLED
     ∧ current ∈ [PENDING_ASSIGNMENT; ASSIGNED; PENDING_PICKUP_FOR_LAB;
                  PENDING_VISIT; PENDING_QUOTE_APPROVAL])
    ∨ (current = PENDING_QUOTE_APPROVAL
       ∧ (target = REPAIR_IN_PROGRESS_LAB
          ∨ target = REPAIR_IN_PROGRESS_ON_SITE)).
Proof.
  intros Hne.
  rewrite <- (bool_decide_eq_true
    ((target = CANCELLED
      ∧ current ∈ [PENDING_ASSIGNMENT; ASSIGNED; PENDING_PICKUP_FOR_LAB;
                   PENDING_VISIT; PENDING_QUOTE_APPROVAL])
     ∨ (current = PENDING_QUOTE_APPROVAL
        ∧ (target = REPAIR_IN_PROGRESS_LAB
           ∨ target = REPAIR_IN_PROGRESS_ON_SITE)))).
  destruct current, target; try (by destruct Hne);
    vm_compute; split; intros H; exact H.
Qed.

Lemma customer_transitions_exact_witness :
  is_transition_allowed REPAIR_IN_PROGRESS_LAB CANCELLED (Member CUSTOMER) ≠ true
  ∧ is_transition_allowed PENDING_VISIT CANCELLED (Member CUSTOMER) = true.
Proof.
  split.
  - intros H.
    pose proof (proj1 (customer_transitions_exact
                         REPAIR_IN_PROGRESS_LAB CANCELLED ltac:(discriminate)) H)
      as H'. clear H. rename H' into H.
    destruct H as [[_ H] | [H _]]; [| discriminate].
    revert H. apply (bool_decide_unpack _). vm_compute. exact I.
  - apply (customer_transitions_exact PENDING_VISIT CANCELLED);
      [discriminate |].
    left. split; [reflexivity | listed].
Defined.

(** C6. For role ENGINEER: from no status other than CANCELLED itself is
    the transition to CANCELLED allowed, and CANCELLED is in no allowed
    list; the allowed list of PENDING_ASSIGNMENT is empty; the allowed list
    of PENDING_QUOTE_APPROVAL is empty. *)
Theorem engineer_restrictions (s : JobStatus) :
  (s ≠ CANCELLED →
     is_transition_allowed s CANCELLED (Member ENGINEER) = false)
  ∧ (CANCELLED ∉ get_allowed_transitions s (Member ENGINEER))
  ∧ get_allowed_transitions PENDING_ASSIGNMENT (Member ENGINEER) = []
  ∧ get_allowed_transitions PENDING_QUOTE_APPROVAL (Member ENGINEER) = [].
Proof.
  repeat split.
  - intros Hne. destruct s; try (by destruct Hne); run_validator.
  - destruct s; listed.
Qed.

Lemma engineer_restrictions_witness :
  is_transition_allowed ASSIGNED CANCELLED (Member ENGINEER) = false.
Proof.
  apply (proj1 (engineer_restrictions ASSIGNED)). discriminate.
Defined.

(** C7. At every status, every target allowed to ENGINEER and every target
    allowed to CUSTOMER is also allowed to ADMIN (as lists returned by
    [get_allowed_transitions] and as sets stored in the tables), and for
    every status other than COMPLETED and CANCELLED the admin list
    contains CANCELLED. *)
Theorem admin_superset (s t : JobStatus) :
  (t ∈ get_allowed_transitions s (Member ENGINEER) →
     t ∈ get_allowed_transitions s (Member ADMIN))
  ∧ (t ∈ get_allowed_transitions s (Member CUSTOMER) →
     t ∈ get_allowed_transitions s (Member ADMIN))
  ∧ default ∅ (ENGINEER_TRANSITIONS !! s) ⊆ default ∅ (ADMIN_TRANSITIONS !! s)
  ∧ default ∅ (CUSTOMER_TRANSITIONS !! s) ⊆ default ∅ (ADMIN_TRANSITIONS !! s)
  ∧ (s ≠ COMPLETED → s ≠ CANCELLED →
     CANCELLED ∈ get_allowed_transitions s (Member ADMIN)).
Proof.
  assert (He : default ∅ (ENGINEER_TRANSITIONS !! s)
               ⊆ default ∅ (ADMIN_TRANSITIONS !! s))
    by (destruct s; listed).
  assert (Hc : default ∅ (CUSTOMER_TRANSITIONS !! s)
               ⊆ default ∅ (ADMIN_TRANSITIONS !! s))
    by (destruct s; listed).
  repeat split; try assumption.
  - rewrite !get_allowed_transitions_Member, !elem_of_elements. apply He.
  - rewrite !get_allowed_transitions_Member, !elem_of_elements. apply Hc.
  - intros H1 H2.
    destruct s; try (by destruct H1); try (by destruct H2); listed.
Qed.

Lemma admin_superset_witness :
  PENDING_VISIT ∈ get_allowed_transitions ASSIGNED (Member ADMIN)
  ∧ CANCELLED ∈ get_allowed_transitions ASSIGNED (Member ADMIN).
Proof.
  destruct (admin_superset ASSIGNED PENDING_VISIT) as (He & _ & _ & _ & Hx).
  split.
  - apply He. listed.
  - apply Hx; discriminate.
Defined.

(** C10, as the code has it. [JobStatus] is a closed enumeration of exactly
    16 members: the member list has no duplicates, holds every status, and
    has length 16. *)
Theorem JobStatus_card_16 :
  card JobStatus = 16
  ∧ NoDup JobStatus_members
  ∧ (∀ s : JobStatus, s ∈ JobStatus_members)
  ∧ length JobStatus_members = 16.
Proof.
  repeat split.
  - apply JobStatus_members_NoDup.
  - apply JobStatus_members_total.
Qed.

(** C10, as stated, fails: the enumeration does not have 18 members, and
    no duplicate-free list of statuses is that long. *)
Lemma JobStatus_card_not_18 :
  card JobStatus ≠ 18
  ∧ ¬ (∃ l : list JobStatus, NoDup l ∧ length l = 18).
Proof.
  split; [discriminate |].
  intros (l & Hnd & Hlen).
  assert (l ⊆+ JobStatus_members) as Hle
    by (apply NoDup_submseteq; [assumption | intros x _; apply JobStatus_members_total]).
  apply submseteq_length in Hle. rewrite Hlen in Hle. simpl in Hle. lia.
Qed.

(* ===================================================================== *)
(** * Properties of the endpoints *)
(* ===================================================================== *)

(** The two 422 details of the status update never coincide, however the
    statuses and the role are rendered. *)
Lemma consent_detail_distinct
    (render_status : JobStatus → string) (render_role : UserRole → string)
    (current new : JobStatus) (r : UserRole) :
  consent_required_detail
  ≠ invalid_transition_detail render_status render_role current new r.
Proof. unfold consent_required_detail, invalid_transition_detail. discriminate. Qed.

(** What the status update does once the caller is an engineer or admin,
    the job exists and an engineer is the assigned one: the transition
    check, then the consent check, then the write. *)
Lemma update_job_status_checks
    (render_status : JobStatus → string) (render_role : UserRole → string)
    (now : string) (db : Db) (job_id : Z) (job : RepairJob)
    (current_user : User) (status_update : JobStatusUpdateCreate) :
  crud_job.get_job db job_id = Some job →
  su_status status_update = IN_TRANSIT_TO_LAB →
  role current_user ∈ [ENGINEER; ADMIN] →
  (role current_user = ENGINEER →
     engineer_id job = Some (user_id current_user)) →
  update_job_status render_status render_role now
    status_update job_id db current_user
  = if negb (is_transition_allowed (status job) IN_TRANSIT_TO_LAB
               (Member (role current_user))) then
      Raise {| status_code := 422;
               detail := invalid_transition_detail render_status render_role
                           (status job) IN_TRANSIT_TO_LAB (role current_user) |}
    else if negb (customer_consent_for_lab job) then
      Raise {| status_code := 422; detail := consent_required_detail |}
    else
      let '(db', updated_job) :=
        crud_job.update_job_status now db job_id IN_TRANSIT_TO_LAB
          (user_id current_user) (su_notes status_update) ∅ in
      Return db' updated_job.
Proof.
  intros Hjob Htarget Hstaff Hassigned.
  assert (Hauth : bool_decide (role current_user = ENGINEER)
                  && bool_decide (engineer_id job ≠ Some (user_id current_user))
                  = false).
  { destruct (decide (role current_user = ENGINEER)) as [He | He].
    - rewrite (bool_decide_eq_false_2 (engineer_id job ≠ _));
        [apply andb_false_r |].
      intros H. apply H. by apply Hassigned.
    - by rewrite (bool_decide_eq_false_2 _ He). }
  unfold update_job_status.
  rewrite (bool_decide_eq_true_2 _ Hstaff), Hjob, Hauth, Htarget.
  simpl negb at 1. cbv iota.
  destruct (is_transition_allowed _ _ _); [| reflexivity].
  simpl negb at 1. cbv iota.
  rewrite (bool_decide_eq_true_2 (IN_TRANSIT_TO_LAB ∈ [IN_TRANSIT_TO_LAB]))
    by (apply list_elem_of_here).
  rewrite (bool_decide_eq_false_2
             (IN_TRANSIT_TO_LAB ∈ [PENDING_PICKUP_FOR_LAB; ESCALATED_TO_LAB]))
    by (intros H; revert H; apply (bool_decide_unpack _); vm_compute; exact I).
  rewrite andb_true_l.
  destruct (su_customer_consent_for_lab status_update); reflexivity.
Qed.

(** C8, as amended.  A status update to IN_TRANSIT_TO_LAB of a job whose
    stored consent is not true is never carried out, whoever asks.  When the request
    reaches the consent check (the caller is an engineer or admin, an
    engineer is the assigned one) and the role's table allows the
    transition, the rejection is the 422 with the consent detail, whatever
    consent flag the request itself carries; with the stored consent true
    the update is carried out.  When the table does not allow the
    transition, the rejection is the 422 with the invalid-transition
    detail, whatever the stored consent: the consent check comes after the
    transition check, and does not look at the role or the current status.
    The two details differ. *)
Theorem consent_gate
    (render_status : JobStatus → string) (render_role : UserRole → string)
    (now : string) (db : Db) (job_id : Z) (job : RepairJob)
    (current_user : User) (status_update : JobStatusUpdateCreate) :
  crud_job.get_job db job_id = Some job →
  su_status status_update = IN_TRANSIT_TO_LAB →
  let response :=
    update_job_status render_status render_role now
      status_update job_id db current_user in
  let reaches_checks :=
    role current_user ∈ [ENGINEER; ADMIN]
    ∧ (role current_user = ENGINEER →
         engineer_id job = Some (user_id current_user)) in
  let allowed :=
    is_transition_allowed (status job) IN_TRANSIT_TO_LAB
      (Member (role current_user)) in
  (customer_consent_for_lab job = false → ∃ e, response = Raise e)
  ∧ (reaches_checks → allowed = true →
     customer_consent_for_lab job = false →
     response = Raise {| status_code := 422;
                         detail := consent_required_detail |})
  ∧ (reaches_checks → allowed = true →
     customer_consent_for_lab job = true →
     ∃ db' job', response = Return db' (Some job')
                 ∧ status job' = IN_TRANSIT_TO_LAB
                 ∧ crud_job.get_job db' job_id = Some job')
  ∧ (reaches_checks → allowed = false →
     response = Raise {| status_code := 422;
                         detail := invalid_transition_detail render_status
                                     render_role (status job)
                                     IN_TRANSIT_TO_LAB (role current_user) |})
  ∧ consent_required_detail
    ≠ invalid_transition_detail render_status render_role (status job)
        IN_TRANSIT_TO_LAB (role current_user).
Proof.
  intros Hjob Htarget response reaches_checks allowed.
  repeat split.
  - intros Hc. subst response. unfold update_job_status.
    rewrite Hjob, Htarget, Hc.
    rewrite (bool_decide_eq_true_2 (IN_TRANSIT_TO_LAB ∈ [IN_TRANSIT_TO_LAB]))
      by (apply list_elem_of_here).
    destruct (negb (bool_decide (role current_user ∈ _))); [by eexists |].
    destruct (bool_decide (role current_user = ENGINEER) && _); [by eexists |].
    destruct (negb (is_transition_allowed _ _ _)); by eexists.
  - intros [Hstaff Hassigned] Hal Hc. subst response allowed.
    rewrite (update_job_status_checks _ _ _ _ _ _ _ _
               Hjob Htarget Hstaff Hassigned), Hal, Hc.
    reflexivity.
  - intros [Hstaff Hassigned] Hal Hc. subst response allowed.
    rewrite (update_job_status_checks _ _ _ _ _ _ _ _
               Hjob Htarget Hstaff Hassigned), Hal, Hc.
    simpl negb. cbv iota.
    unfold crud_job.update_job_status. rewrite Hjob. cbv zeta.
    eexists _, _. split; [reflexivity |]. split; [reflexivity |].
    unfold crud_job.get_job, crud_job.record_status_update. simpl.
    apply lookup_insert_eq.
  - intros [Hstaff Hassigned] Hal. subst response allowed.
    rewrite (update_job_status_checks _ _ _ _ _ _ _ _
               Hjob Htarget Hstaff Hassigned), Hal.
    reflexivity.
  - apply consent_detail_distinct.
Qed.

Lemma consent_gate_witness :
  update_job_status JobStatus_value UserRole_value Sample.timestamp
    Sample.to_lab 1 Sample.db Sample.admin
  = Raise {| status_code := 422; detail := consent_required_detail |}
  ∧ update_job_status JobStatus_value UserRole_value Sample.timestamp
      Sample.to_lab 3 Sample.db Sample.admin
    = Raise {| status_code := 422;
               detail := "Invalid status transition from ASSIGNED to IN_TRANSIT_TO_LAB for ADMIN" |}.
Proof.
  split.
  - apply (consent_gate JobStatus_value UserRole_value Sample.timestamp
             Sample.db 1 Sample.job_pickup Sample.admin Sample.to_lab);
      try reflexivity; try (by vm_compute).
    split; [listed | discriminate].
  - apply (consent_gate JobStatus_value UserRole_value Sample.timestamp
             Sample.db 3 Sample.job_assigned Sample.admin Sample.to_lab);
      try reflexivity; try (by vm_compute).
    split; [listed | discriminate].
Defined.

(** C8, as stated, fails: a stored consent that is not true does not by
    itself bring the consent rejection.  An admin who asks to move a job
    from ASSIGNED to IN_TRANSIT_TO_LAB, with no consent stored, is answered
    by the transition check that comes first, with the invalid-transition
    detail. *)
Lemma consent_rejection_needs_allowed_transition :
  update_job_status JobStatus_value UserRole_value Sample.timestamp
    Sample.to_lab 3 Sample.db Sample.admin
  = Raise {| status_code := 422;
             detail := "Invalid status transition from ASSIGNED to IN_TRANSIT_TO_LAB for ADMIN" |}
  ∧ ¬ (∀ (render_status : JobStatus → string)
         (render_role : UserRole → string) (now : string)
         (db : Db) (job_id : Z) (job : RepairJob) (current_user : User)
         (status_update : JobStatusUpdateCreate),
         crud_job.get_job db job_id = Some job →
         su_status status_update = IN_TRANSIT_TO_LAB →
         customer_consent_for_lab job = false →
         update_job_status render_status render_role now
           status_update job_id db current_user
         = Raise {| status_code := 422;
                    detail := consent_required_detail |}).
Proof.
  split; [by vm_compute |].
  intros H.
  specialize (H JobStatus_value UserRole_value Sample.timestamp Sample.db 3%Z
                Sample.job_assigned Sample.admin Sample.to_lab).
  assert (Hjob : crud_job.get_job Sample.db 3 = Some Sample.job_assigned)
    by (by vm_compute).
  specialize (H Hjob eq_refl eq_refl).
  vm_compute in H. discriminate.
Qed.

(** C9. The cancel operation accepts the request for every job whose
    status is neither COMPLETED nor CANCELLED, from any admin and from the
    customer who owns the job: the job's status becomes CANCELLED, the
    reason is stored and one history row from the old status to CANCELLED
    is added.  The validator is not asked: the request is accepted from
    REPAIR_IN_PROGRESS_LAB and REPAIR_IN_PROGRESS_ON_SITE too, where the
    customer table denies the transition to CANCELLED. *)
Theorem cancel_job_skips_validator
    (render_status : JobStatus → string)
    (db : Db) (job_id : Z) (job : RepairJob)
    (current_user : User) (cancellation_data : JobCancellation) :
  crud_job.get_job db job_id = Some job →
  status job ≠ COMPLETED →
  status job ≠ CANCELLED →
  role current_user = ADMIN
  ∨ (role current_user = CUSTOMER ∧ customer_id job = user_id current_user) →
  (∃ db' job',
     cancel_job render_status cancellation_data job_id db current_user
     = Return db' (Some job')
     ∧ status job' = CANCELLED
     ∧ cancellation_reason job' = Some (reason cancellation_data)
     ∧ crud_job.get_job db' job_id = Some job'
     ∧ job_status_updates db'
       = (job_status_updates db
          ++ [ {| upd_job_id := job_id;
                  upd_user_id := user_id current_user;
                  previous_status := Some (status job);
                  new_status := CANCELLED;
                  notes := Some ("Job cancelled: "
                                 ++ reason cancellation_data)%string |} ])%list)
  ∧ is_transition_allowed REPAIR_IN_PROGRESS_LAB CANCELLED (Member CUSTOMER)
    = false
  ∧ is_transition_allowed REPAIR_IN_PROGRESS_ON_SITE CANCELLED (Member CUSTOMER)
    = false.
Proof.
  intros Hjob Hc Hx Hwho.
  split; [| split; run_validator].
  assert (Hauth : bool_decide (role current_user = CUSTOMER)
                  && bool_decide (customer_id job ≠ user_id current_user)
                  = false).
  { destruct Hwho as [Ha | [_ Hown]].
    - rewrite Ha. reflexivity.
    - rewrite (bool_decide_eq_false_2 (customer_id job ≠ _));
        [apply andb_false_r | intros H; by apply H]. }
  assert (Heng : bool_decide (role current_user = ENGINEER) = false).
  { apply bool_decide_eq_false_2.
    destruct Hwho as [Ha | [Hcu _]]; congruence. }
  assert (Hterm : bool_decide (status job ∈ [COMPLETED; CANCELLED]) = false).
  { apply bool_decide_eq_false_2.
    rewrite !elem_of_cons, elem_of_nil. tauto. }
  unfold cancel_job. rewrite Hjob, Hauth, Heng, Hterm. cbv iota.
  unfold crud_job.cancel_job. rewrite Hjob. cbv zeta.
  eexists _, _. split; [reflexivity |].
  repeat split.
  unfold crud_job.get_job, crud_job.record_status_update. simpl.
  apply lookup_insert_eq.
Qed.

Lemma cancel_job_skips_validator_witness :
  ∃ db' job',
    cancel_job JobStatus_value Sample.changed_my_mind 2 Sample.db
      Sample.customer
    = Return db' (Some job')
    ∧ status job' = CANCELLED.
Proof.
  destruct (cancel_job_skips_validator JobStatus_value Sample.db 2
              Sample.job_in_repair Sample.customer Sample.changed_my_mind)
    as [(db' & job' & Hret & Hst & _) _].
  - by vm_compute.
  - discriminate.
  - discriminate.
  - right. split; reflexivity.
  - exists db', job'. split; assumption.
Defined.

(* ===================================================================== *)
(** * Further properties of the transition tables *)
(* ===================================================================== *)

(** Whatever is passed as the role, the validator behaves as for one of
    the three members, or denies every change of status. *)
Lemma role_dispatch (role : RoleValue) :
  (∃ r : UserRole, ∀ s t,
     is_transition_allowed s t role = is_transition_allowed s t (Member r))
  ∨ (∀ s t, s ≠ t → is_transition_allowed s t role = false).
Proof.
  destruct (role_eq role ADMIN) eqn:Ha;
    [| destruct (role_eq role ENGINEER) eqn:He;
       [| destruct (role_eq role CUSTOMER) eqn:Hc]].
  - left. exists ADMIN. intros s t.
    unfold is_transition_allowed. by rewrite Ha.
  - left. exists ENGINEER. intros s t.
    unfold is_transition_allowed. by rewrite Ha, He.
  - left. exists CUSTOMER. intros s t.
    unfold is_transition_allowed. by rewrite Ha, He, Hc.
  - right. intros s t Hne.
    unfold is_transition_allowed. rewrite Ha, He, Hc.
    by rewrite bool_decide_eq_false_2.
Qed.

(** X1. The admin table is exactly the engineer table and the customer
    table together, plus the assignment step and the cancellation of every
    job that is not finished. *)
Theorem admin_table_decomposition (s t : JobStatus) :
  s ≠ t →
  is_transition_allowed s t (Member ADMIN) = true
  ↔ is_transition_allowed s t (Member ENGINEER) = true
    ∨ is_transition_allowed s t (Member CUSTOMER) = true
    ∨ (s = PENDING_ASSIGNMENT ∧ t = ASSIGNED)
    ∨ (t = CANCELLED ∧ s ≠ COMPLETED).
Proof.
  intros Hne.
  rewrite <- (bool_decide_eq_true
    (is_transition_allowed s t (Member ENGINEER) = true
     ∨ is_transition_allowed s t (Member CUSTOMER) = true
     ∨ (s = PENDING_ASSIGNMENT ∧ t = ASSIGNED)
     ∨ (t = CANCELLED ∧ s ≠ COMPLETED))).
  destruct s, t; try (exfalso; apply Hne; reflexivity);
    vm_compute; split; intros H; exact H.
Qed.

Lemma admin_table_decomposition_witness :
  is_transition_allowed PENDING_QUOTE_APPROVAL REPAIR_IN_PROGRESS_LAB
    (Member ADMIN) = true.
Proof.
  apply (admin_table_decomposition PENDING_QUOTE_APPROVAL
           REPAIR_IN_PROGRESS_LAB); [discriminate |].
  right. left. by vm_compute.
Defined.

(** X2. What the engineer table allows and what the customer table allows
    never overlap: no change of status is open to both roles. *)
Theorem engineer_customer_disjoint (s t : JobStatus) :
  s ≠ t →
  ¬ (is_transition_allowed s t (Member ENGINEER) = true
     ∧ is_transition_allowed s t (Member CUSTOMER) = true).
Proof.
  intros Hne [He Hc]. revert He Hc.
  destruct s, t; try (exfalso; apply Hne; reflexivity);
    vm_compute; intros He Hc; discriminate.
Qed.

Lemma engineer_customer_disjoint_witness :
  ¬ (is_transition_allowed ASSIGNED PENDING_VISIT (Member ENGINEER) = true
     ∧ is_transition_allowed ASSIGNED PENDING_VISIT (Member CUSTOMER) = true).
Proof.
  apply (engineer_customer_disjoint ASSIGNED PENDING_VISIT). discriminate.
Defined.

(** X3. No role value whatsoever is allowed to move a job back to
    PENDING_ASSIGNMENT from another status. *)
Theorem no_return_to_pending_assignment (role : RoleValue) (s : JobStatus) :
  s ≠ PENDING_ASSIGNMENT →
  is_transition_allowed s PENDING_ASSIGNMENT role = false.
Proof.
  intros Hne. destruct (role_dispatch role) as [[r Hr] | Hun].
  - rewrite Hr.
    destruct r, s; try (exfalso; apply Hne; reflexivity); run_validator.
  - by apply Hun.
Qed.

Lemma no_return_to_pending_assignment_witness :
  is_transition_allowed ASSIGNED PENDING_ASSIGNMENT (Member ADMIN) = false.
Proof.
  apply (no_return_to_pending_assignment (Member ADMIN) ASSIGNED).
  discriminate.
Defined.

(** X4. The workflow has one loop only.  There is a ranking of the
    statuses that every allowed change of status, for every role value,
    strictly raises, except the step from ESCALATED_TO_LAB to
    PENDING_PICKUP_FOR_LAB; and that step closes a loop an engineer can
    walk: pickup, on-site diagnosis, escalation, pickup again. *)
Theorem workflow_single_loop :
  (∃ rank : JobStatus → nat, ∀ (role : RoleValue) (s t : JobStatus),
     s ≠ t → is_transition_allowed s t role = true →
     rank s < rank t
     ∨ (s = ESCALATED_TO_LAB ∧ t = PENDING_PICKUP_FOR_LAB))
  ∧ is_transition_allowed PENDING_PICKUP_FOR_LAB ON_SITE_DIAGNOSIS
      (Member ENGINEER) = true
  ∧ is_transition_allowed ON_SITE_DIAGNOSIS ESCALATED_TO_LAB
      (Member ENGINEER) = true
  ∧ is_transition_allowed ESCALATED_TO_LAB PENDING_PICKUP_FOR_LAB
      (Member ENGINEER) = true.
Proof.
  split; [| repeat split; run_validator].
  exists (λ s, match s with
               | PENDING_ASSIGNMENT => 0
               | ASSIGNED => 1
               | PENDING_VISIT | PENDING_PICKUP_FOR_LAB => 2
               | ON_SITE_DIAGNOSIS | IN_TRANSIT_TO_LAB => 3
               | ESCALATED_TO_LAB | LAB_DIAGNOSIS => 4
               | PENDING_QUOTE_APPROVAL => 5
               | REPAIR_IN_PROGRESS_LAB | REPAIR_IN_PROGRESS_ON_SITE => 6
               | PENDING_RETURN_DELIVERY => 7
               | IN_TRANSIT_FROM_LAB => 8
               | PENDING_PAYMENT => 9
               | COMPLETED | CANCELLED => 10
               end).
  intros role s t Hne Hal.
  destruct (role_dispatch role) as [[r Hr] | Hun];
    [| rewrite (Hun s t Hne) in Hal; discriminate].
  rewrite Hr in Hal. clear Hr. revert Hal.
  destruct r, s, t; try (exfalso; apply Hne; reflexivity); clear Hne;
    vm_compute; intros Hal; try discriminate;
    first [ left; lia | right; split; reflexivity ].
Qed.

Lemma workflow_single_loop_witness :
  ∃ rank : JobStatus → nat,
    rank ASSIGNED < rank PENDING_VISIT
    ∨ (ASSIGNED = ESCALATED_TO_LAB ∧ PENDING_VISIT = PENDING_PICKUP_FOR_LAB).
Proof.
  destruct workflow_single_loop as [[rank Hrank] _].
  exists rank.
  apply (Hrank (Member ENGINEER) ASSIGNED PENDING_VISIT);
    [discriminate | by vm_compute].
Defined.

(** X5. A plain string is taken for a role exactly when it is the value
    of a member: passing the string of a role gives the same answers as
    passing the member. *)
Theorem role_string_is_member (r : UserRole) (s t : JobStatus) :
  is_transition_allowed s t (Str (UserRole_value r))
  = is_transition_allowed s t (Member r)
  ∧ get_allowed_transitions s (Str (UserRole_value r))
    = get_allowed_transitions s (Member r).
Proof. by destruct r. Qed.

(** Following a function that only takes allowed steps stays within what
    is reachable. *)
Lemma reachable_iter (role : RoleValue) (next : JobStatus → JobStatus) :
  (∀ s, transition role s (next s)) →
  ∀ n s, reachable role s (Nat.iter n next s).
Proof.
  intros Hnext n s. induction n as [| n IH]; simpl.
  - apply rtc_refl.
  - eapply rtc_r; [exact IH | apply Hnext].
Qed.

(** A step into COMPLETED, other than staying there, is never open to a
    customer. *)
Lemma customer_never_completes (s t : JobStatus) :
  reachable (Member CUSTOMER) s t → t = COMPLETED → s = COMPLETED.
Proof.
  induction 1 as [| s u t Hstep _ IH]; [done |].
  intros ->. specialize (IH eq_refl). subst u.
  revert Hstep. unfold transition.
  destruct s; vm_compute; intros H; first [discriminate | reflexivity].
Qed.

(** From the three statuses where the engineer table is empty an engineer
    gets nowhere. *)
Lemma engineer_stuck (s t : JobStatus) :
  reachable (Member ENGINEER) s t →
  s ∈ [PENDING_ASSIGNMENT; PENDING_QUOTE_APPROVAL; CANCELLED] → t = s.
Proof.
  induction 1 as [| s u t Hstep _ IH]; [done |].
  intros Hin.
  assert (u = s) as ->; [| by apply IH].
  revert Hstep. unfold transition.
  destruct s;
    try (exfalso; revert Hin; apply (bool_decide_unpack _); vm_compute;
         exact I);
    clear; destruct u; vm_compute; intros H;
    first [discriminate | reflexivity].
Qed.

(** X6. Who can finish a job.  By admin steps alone COMPLETED is reachable
    from every status but CANCELLED.  By engineer steps alone it is
    reachable exactly from the statuses other than PENDING_ASSIGNMENT,
    PENDING_QUOTE_APPROVAL and CANCELLED.  By customer steps alone it is
    not reachable at all, except from COMPLETED itself. *)
Theorem completion_reachable (s : JobStatus) :
  (s ≠ CANCELLED → reachable (Member ADMIN) s COMPLETED)
  ∧ (reachable (Member ENGINEER) s COMPLETED
     ↔ s ∉ [PENDING_ASSIGNMENT; PENDING_QUOTE_APPROVAL; CANCELLED])
  ∧ (reachable (Member CUSTOMER) s COMPLETED ↔ s = COMPLETED).
Proof.
  pose (next := λ (r : UserRole) (s : JobStatus),
    match s with
    | PENDING_ASSIGNMENT =>
        match r with ADMIN => ASSIGNED | _ => PENDING_ASSIGNMENT end
    | ASSIGNED => PENDING_VISIT
    | PENDING_VISIT => ON_SITE_DIAGNOSIS
    | PENDING_PICKUP_FOR_LAB => IN_TRANSIT_TO_LAB
    | IN_TRANSIT_TO_LAB => LAB_DIAGNOSIS
    | IN_TRANSIT_FROM_LAB => PENDING_PAYMENT
    | ON_SITE_DIAGNOSIS => REPAIR_IN_PROGRESS_ON_SITE
    | LAB_DIAGNOSIS => REPAIR_IN_PROGRESS_LAB
    | ESCALATED_TO_LAB => PENDING_PICKUP_FOR_LAB
    | PENDING_QUOTE_APPROVAL =>
        match r with
        | ADMIN => REPAIR_IN_PROGRESS_LAB
        | _ => PENDING_QUOTE_APPROVAL
        end
    | REPAIR_IN_PROGRESS_LAB => PENDING_PAYMENT
    | REPAIR_IN_PROGRESS_ON_SITE => PENDING_PAYMENT
    | PENDING_RETURN_DELIVERY => IN_TRANSIT_FROM_LAB
    | PENDING_PAYMENT => COMPLETED
    | COMPLETED => COMPLETED
    | CANCELLED => CANCELLED
    end).
  assert (Hadmin : ∀ u, transition (Member ADMIN) u (next ADMIN u))
    by (intros u; unfold transition; destruct u; by vm_compute).
  assert (Heng : ∀ u, transition (Member ENGINEER) u (next ENGINEER u))
    by (intros u; unfold transition; destruct u; by vm_compute).
  pose proof (reachable_iter _ _ Hadmin 6 s) as Ha.
  pose proof (reachable_iter _ _ Heng 6 s) as He.
  split; [| split].
  - intros Hne. destruct s; first [exact Ha | by destruct Hne].
  - split.
    + intros Hreach Hin.
      pose proof (engineer_stuck _ _ Hreach Hin) as <-.
      revert Hin. apply (bool_decide_unpack _). by vm_compute.
    + intros Hnot. destruct s; first [exact He | exfalso; apply Hnot; listed].
  - split.
    + intros Hreach. by apply (customer_never_completes _ _ Hreach).
    + intros ->. apply rtc_refl.
Qed.

Lemma completion_reachable_witness :
  reachable (Member ADMIN) PENDING_ASSIGNMENT COMPLETED
  ∧ reachable (Member ENGINEER) ESCALATED_TO_LAB COMPLETED.
Proof.
  split.
  - apply (proj1 (completion_reachable PENDING_ASSIGNMENT)). discriminate.
  - apply (proj1 (proj2 (completion_reachable ESCALATED_TO_LAB))).
    intros H. revert H. apply (bool_decide_unpack _). by vm_compute.
Defined.

(* ===================================================================== *)
(** * Further properties of the endpoints *)
(* ===================================================================== *)

(** Everything an accepted status update tells about the request and
    about what was written. *)
Lemma update_job_status_Return
    (render_status : JobStatus → string) (render_role : UserRole → string)
    (now : string) (status_update : JobStatusUpdateCreate) (job_id : Z)
    (db : Db) (current_user : User) (db' : Db) (returned : option RepairJob) :
  update_job_status render_status render_role now
    status_update job_id db current_user = Return db' returned →
  ∃ job job',
    crud_job.get_job db job_id = Some job
    ∧ returned = Some job'
    ∧ role current_user ∈ [ENGINEER; ADMIN]
    ∧ (role current_user = ENGINEER →
         engineer_id job = Some (user_id current_user))
    ∧ is_transition_allowed (status job) (su_status status_update)
        (Member (role current_user)) = true
    ∧ (su_status status_update = IN_TRANSIT_TO_LAB →
         customer_consent_for_lab job = true)
    ∧ status job' = su_status status_update
    ∧ customer_consent_for_lab job'
      = match su_customer_consent_for_lab status_update with
        | Some flag =>
            if bool_decide (su_status status_update
                              ∈ [PENDING_PICKUP_FOR_LAB; ESCALATED_TO_LAB])
            then flag else customer_consent_for_lab job
        | None => customer_consent_for_lab job
        end
    ∧ (id job' = id job ∧ customer_id job' = customer_id job
       ∧ engineer_id job' = engineer_id job
       ∧ cancellation_reason job' = cancellation_reason job)
    ∧ repair_jobs db' = <[job_id := job']> (repair_jobs db)
    ∧ users db' = users db
    ∧ job_status_updates db'
      = (job_status_updates db
         ++ [ {| upd_job_id := job_id;
                 upd_user_id := user_id current_user;
                 previous_status := Some (status job);
                 new_status := su_status status_update;
                 notes := su_notes status_update |} ])%list.
Proof.
  unfold update_job_status.
  destruct (bool_decide (role current_user ∈ [ENGINEER; ADMIN])) eqn:Hstaff;
    [| discriminate].
  simpl negb. cbv iota.
  destruct (crud_job.get_job db job_id) as [job |] eqn:Hjob; [| discriminate].
  destruct (bool_decide (role current_user = ENGINEER)
            && bool_decide (engineer_id job ≠ Some (user_id current_user)))
    eqn:Hauth; [discriminate |].
  destruct (is_transition_allowed _ _ _) eqn:Hal; [| discriminate].
  simpl negb. cbv iota.
  destruct (bool_decide (su_status status_update ∈ [IN_TRANSIT_TO_LAB])
            && negb (customer_consent_for_lab job)) eqn:Hconsent;
    [discriminate |].
  unfold crud_job.update_job_status. rewrite Hjob. cbv zeta.
  intros [= <- <-]. eexists job, _.
  split; [reflexivity |]. split; [reflexivity |].
  split; [exact (bool_decide_eq_true_1 _ Hstaff) |].
  split.
  { intros He. rewrite (bool_decide_eq_true_2 _ He), andb_true_l in Hauth.
    apply bool_decide_eq_false in Hauth.
    by destruct (decide (engineer_id job = Some (user_id current_user))). }
  split; [exact Hal |].
  split.
  { intros Ht. rewrite Ht in Hconsent.
    rewrite (bool_decide_eq_true_2
               (IN_TRANSIT_TO_LAB ∈ [IN_TRANSIT_TO_LAB])), andb_true_l
      in Hconsent by apply list_elem_of_here.
    by apply negb_false_iff. }
  split; [reflexivity |].
  split.
  { simpl. destruct (su_customer_consent_for_lab status_update) as [flag |];
      [destruct (bool_decide (su_status status_update
                                ∈ [PENDING_PICKUP_FOR_LAB; ESCALATED_TO_LAB])) |].
    - by rewrite lookup_singleton_eq.
    - by rewrite lookup_empty.
    - by rewrite lookup_empty. }
  repeat split.
Qed.

(** X7. The status update never goes round the validator: whenever it
    carries out a request, the caller is an engineer or an admin, an
    engineer is the one assigned to the job, the validator allows the
    change for the caller's role, and a move to IN_TRANSIT_TO_LAB found
    the consent already stored. *)
Theorem update_job_status_sound
    (render_status : JobStatus → string) (render_role : UserRole → string)
    (now : string) (status_update : JobStatusUpdateCreate) (job_id : Z)
    (db : Db) (current_user : User) (db' : Db) (returned : option RepairJob) :
  update_job_status render_status render_role now
    status_update job_id db current_user = Return db' returned →
  ∃ job,
    crud_job.get_job db job_id = Some job
    ∧ role current_user ≠ CUSTOMER
    ∧ (role current_user = ENGINEER →
         engineer_id job = Some (user_id current_user))
    ∧ is_transition_allowed (status job) (su_status status_update)
        (Member (role current_user)) = true
    ∧ (su_status status_update = IN_TRANSIT_TO_LAB →
         customer_consent_for_lab job = true).
Proof.
  intros Hret.
  destruct (update_job_status_Return _ _ _ _ _ _ _ _ _ Hret)
    as (job & job' & Hjob & _ & Hstaff & Hassigned & Hal & Hconsent & _).
  exists job. repeat split; try assumption.
  intros Hc. rewrite Hc in Hstaff. revert Hstaff.
  apply (bool_decide_unpack _). by vm_compute.
Qed.

(** X8. What an accepted status update writes: the job gets the requested
    status, the history gets exactly one row (from the old status to the
    new one, by the caller), the consent column takes the request's flag
    only when the target is PENDING_PICKUP_FOR_LAB or ESCALATED_TO_LAB and
    keeps its value otherwise, the engineer, the customer and the
    cancellation reason stay, and no other job and no user is touched. *)
Theorem update_job_status_effect
    (render_status : JobStatus → string) (render_role : UserRole → string)
    (now : string) (status_update : JobStatusUpdateCreate) (job_id : Z)
    (db : Db) (current_user : User) (db' : Db) (returned : option RepairJob) :
  update_job_status render_status render_role now
    status_update job_id db current_user = Return db' returned →
  ∃ job job',
    crud_job.get_job db job_id = Some job
    ∧ returned = Some job'
    ∧ crud_job.get_job db' job_id = Some job'
    ∧ status job' = su_status status_update
    ∧ customer_consent_for_lab job'
      = match su_customer_consent_for_lab status_update with
        | Some flag =>
            if bool_decide (su_status status_update
                              ∈ [PENDING_PICKUP_FOR_LAB; ESCALATED_TO_LAB])
            then flag else customer_consent_for_lab job
        | None => customer_consent_for_lab job
        end
    ∧ engineer_id job' = engineer_id job
    ∧ customer_id job' = customer_id job
    ∧ cancellation_reason job' = cancellation_reason job
    ∧ job_status_updates db'
      = (job_status_updates db
         ++ [ {| upd_job_id := job_id;
                 upd_user_id := user_id current_user;
                 previous_status := Some (status job);
                 new_status := su_status status_update;
                 notes := su_notes status_update |} ])%list
    ∧ (∀ other, other ≠ job_id →
         crud_job.get_job db' other = crud_job.get_job db other)
    ∧ users db' = users db.
Proof.
  intros Hret.
  destruct (update_job_status_Return _ _ _ _ _ _ _ _ _ Hret)
    as (job & job' & Hjob & -> & _ & _ & _ & _ & Hst & Hcons
        & (_ & Hcust & Heng & Hreason) & Hjobs & Husers & Hhist).
  exists job, job'. unfold crud_job.get_job in *. rewrite Hjobs.
  repeat split; try assumption.
  - apply lookup_insert_eq.
  - intros other Hne. by apply lookup_insert_ne.
Qed.

Lemma update_job_status_sound_witness :
  ∃ job,
    crud_job.get_job Sample.db 1 = Some job
    ∧ is_transition_allowed (status job) ON_SITE_DIAGNOSIS
        (Member ENGINEER) = true.
Proof.
  destruct (update_job_status_sound JobStatus_value UserRole_value
              Sample.timestamp
              {| su_status := ON_SITE_DIAGNOSIS; su_notes := None;
                 su_customer_consent_for_lab := None |}
              1 Sample.db Sample.engineer
              (fst (crud_job.update_job_status Sample.timestamp Sample.db 1
                      ON_SITE_DIAGNOSIS "u-eng" None ∅))
              (snd (crud_job.update_job_status Sample.timestamp Sample.db 1
                      ON_SITE_DIAGNOSIS "u-eng" None ∅)))
    as (job & Hjob & _ & _ & Hal & _).
  - by vm_compute.
  - exists job. split; assumption.
Defined.

Lemma update_job_status_effect_witness :
  ∃ job',
    crud_job.get_job
      (fst (crud_job.update_job_status Sample.timestamp Sample.db 1
              ON_SITE_DIAGNOSIS "u-eng" None ∅)) 1 = Some job'
    ∧ status job' = ON_SITE_DIAGNOSIS.
Proof.
  destruct (update_job_status_effect JobStatus_value UserRole_value
              Sample.timestamp
              {| su_status := ON_SITE_DIAGNOSIS; su_notes := None;
                 su_customer_consent_for_lab := None |}
              1 Sample.db Sample.engineer
              (fst (crud_job.update_job_status Sample.timestamp Sample.db 1
                      ON_SITE_DIAGNOSIS "u-eng" None ∅))
              (snd (crud_job.update_job_status Sample.timestamp Sample.db 1
                      ON_SITE_DIAGNOSIS "u-eng" None ∅)))
    as (job & job' & _ & _ & Hget & Hst & _).
  - by vm_compute.
  - exists job'. split; assumption.
Defined.

(** Keeping the status is allowed to every role (the check that comes
    first in the validator). *)
Lemma same_status_allowed (s : JobStatus) (role : RoleValue) :
  is_transition_allowed s s role = true.
Proof. unfold is_transition_allowed. by rewrite bool_decide_eq_true_2. Qed.

(** A request that passes every check of the status update is carried
    out. *)
Lemma update_job_status_accepts
    (render_status : JobStatus → string) (render_role : UserRole → string)
    (now : string) (status_update : JobStatusUpdateCreate) (job_id : Z)
    (db : Db) (current_user : User) (job : RepairJob) :
  crud_job.get_job db job_id = Some job →
  role current_user ∈ [ENGINEER; ADMIN] →
  (role current_user = ENGINEER →
     engineer_id job = Some (user_id current_user)) →
  is_transition_allowed (status job) (su_status status_update)
    (Member (role current_user)) = true →
  (su_status status_update = IN_TRANSIT_TO_LAB →
     customer_consent_for_lab job = true) →
  ∃ db' job',
    update_job_status render_status render_role now
      status_update job_id db current_user = Return db' (Some job').
Proof.
  intros Hjob Hstaff Hassigned Hal Hconsent.
  unfold update_job_status.
  rewrite (bool_decide_eq_true_2 _ Hstaff), Hjob.
  simpl negb. cbv iota.
  replace (bool_decide (role current_user = ENGINEER)
           && bool_decide (engineer_id job ≠ Some (user_id current_user)))
    with false.
  2: { destruct (decide (role current_user = ENGINEER)) as [He | He].
       - rewrite (bool_decide_eq_false_2 (engineer_id job ≠ _));
           [by rewrite andb_false_r |].
         intros H. apply H. by apply Hassigned.
       - by rewrite (bool_decide_eq_false_2 _ He). }
  rewrite Hal. simpl negb. cbv iota.
  replace (bool_decide (su_status status_update ∈ [IN_TRANSIT_TO_LAB])
           && negb (customer_consent_for_lab job))
    with false.
  2: { destruct (decide (su_status status_update = IN_TRANSIT_TO_LAB))
         as [Ht | Ht].
       - by rewrite (Hconsent Ht), andb_false_r.
       - rewrite bool_decide_eq_false_2; [done |].
         rewrite elem_of_cons, elem_of_nil. tauto. }
  unfold crud_job.update_job_status. rewrite Hjob. cbv zeta.
  by eexists _, _.
Qed.

(** X9. A customer cannot use the status update at all: whatever the job,
    the database and the target, the answer is the 403 of the role check,
    which comes before the job is even looked up.  This holds also for the
    approval of a quote, which the customer table would allow. *)
Theorem update_job_status_refuses_customers
    (render_status : JobStatus → string) (render_role : UserRole → string)
    (now : string) (status_update : JobStatusUpdateCreate) (job_id : Z)
    (db : Db) (current_user : User) :
  role current_user = CUSTOMER →
  update_job_status render_status render_role now
    status_update job_id db current_user
  = Raise {| status_code := 403;
             detail := "Only Engineers and Admins can update job status" |}
  ∧ is_transition_allowed PENDING_QUOTE_APPROVAL REPAIR_IN_PROGRESS_LAB
      (Member (role current_user)) = true.
Proof.
  intros Hrole. unfold update_job_status. rewrite Hrole.
  split; [reflexivity | by vm_compute].
Qed.

Lemma update_job_status_refuses_customers_witness :
  update_job_status JobStatus_value UserRole_value Sample.timestamp
    {| su_status := REPAIR_IN_PROGRESS_LAB; su_notes := None;
       su_customer_consent_for_lab := None |} 99 Sample.db Sample.customer
  = Raise {| status_code := 403;
             detail := "Only Engineers and Admins can update job status" |}.
Proof.
  apply (update_job_status_refuses_customers JobStatus_value UserRole_value
           Sample.timestamp _ 99 Sample.db Sample.customer).
  reflexivity.
Defined.

(** X10. How the consent gets stored.  For a job waiting for pickup, a
    status update that keeps PENDING_PICKUP_FOR_LAB and carries the consent
    flag is accepted and stores the consent; the move to IN_TRANSIT_TO_LAB
    asked for next is then accepted, and the history has grown by two
    rows. *)
Theorem consent_then_transit
    (render_status : JobStatus → string) (render_role : UserRole → string)
    (now1 now2 : string) (notes1 notes2 : option string)
    (flag2 : option bool) (job_id : Z)
    (db : Db) (current_user : User) (job : RepairJob) :
  crud_job.get_job db job_id = Some job →
  status job = PENDING_PICKUP_FOR_LAB →
  role current_user ∈ [ENGINEER; ADMIN] →
  (role current_user = ENGINEER →
     engineer_id job = Some (user_id current_user)) →
  ∃ db1 job1 db2 job2,
    update_job_status render_status render_role now1
      {| su_status := PENDING_PICKUP_FOR_LAB; su_notes := notes1;
         su_customer_consent_for_lab := Some true |}
      job_id db current_user = Return db1 (Some job1)
    ∧ customer_consent_for_lab job1 = true
    ∧ update_job_status render_status render_role now2
        {| su_status := IN_TRANSIT_TO_LAB; su_notes := notes2;
           su_customer_consent_for_lab := flag2 |}
        job_id db1 current_user = Return db2 (Some job2)
    ∧ status job2 = IN_TRANSIT_TO_LAB
    ∧ customer_consent_for_lab job2 = true
    ∧ length (job_status_updates db2) = length (job_status_updates db) + 2.
Proof.
  intros Hjob Hst Hstaff Hassigned.
  destruct (update_job_status_accepts render_status render_role now1
              {| su_status := PENDING_PICKUP_FOR_LAB; su_notes := notes1;
                 su_customer_consent_for_lab := Some true |}
              job_id db current_user job Hjob Hstaff Hassigned)
    as (db1 & job1 & Hret1).
  { simpl. rewrite Hst. apply same_status_allowed. }
  { discriminate. }
  destruct (update_job_status_Return _ _ _ _ _ _ _ _ _ Hret1)
    as (job0 & job1' & Hjob0 & [= <-] & _ & _ & _ & _ & Hst1 & Hcons1
        & (_ & _ & Heng1 & _) & Hjobs1 & _ & Hhist1).
  rewrite Hjob in Hjob0. injection Hjob0 as <-.
  simpl in Hst1, Hcons1, Hhist1.
  assert (Hjob1 : crud_job.get_job db1 job_id = Some job1)
    by (unfold crud_job.get_job; rewrite Hjobs1; apply lookup_insert_eq).
  destruct (update_job_status_accepts render_status render_role now2
              {| su_status := IN_TRANSIT_TO_LAB; su_notes := notes2;
                 su_customer_consent_for_lab := flag2 |}
              job_id db1 current_user job1 Hjob1 Hstaff)
    as (db2 & job2 & Hret2).
  { rewrite Heng1. exact Hassigned. }
  { simpl. rewrite Hst1. revert Hstaff.
    destruct (role current_user); intros Hstaff; try (by vm_compute).
    exfalso. revert Hstaff. apply (bool_decide_unpack _). by vm_compute. }
  { intros _. exact Hcons1. }
  destruct (update_job_status_Return _ _ _ _ _ _ _ _ _ Hret2)
    as (job1' & job2' & Hjob1' & [= <-] & _ & _ & _ & _ & Hst2 & Hcons2
        & _ & _ & _ & Hhist2).
  rewrite Hjob1 in Hjob1'. injection Hjob1' as <-.
  simpl in Hst2, Hcons2.
  exists db1, job1, db2, job2.
  repeat split; try assumption.
  - rewrite Hcons2. destruct flag2; exact Hcons1.
  - rewrite Hhist2, Hhist1, !length_app. simpl. lia.
Qed.

Lemma consent_then_transit_witness :
  ∃ db1 job1 db2 job2,
    update_job_status JobStatus_value UserRole_value Sample.timestamp
      {| su_status := PENDING_PICKUP_FOR_LAB; su_notes := None;
         su_customer_consent_for_lab := Some true |}
      1 Sample.db Sample.engineer = Return db1 (Some job1)
    ∧ update_job_status JobStatus_value UserRole_value Sample.timestamp
        Sample.to_lab 1 db1 Sample.engineer = Return db2 (Some job2)
    ∧ status job2 = IN_TRANSIT_TO_LAB.
Proof.
  destruct (consent_then_transit JobStatus_value UserRole_value
              Sample.timestamp Sample.timestamp None None (Some true)
              1 Sample.db Sample.engineer Sample.job_pickup)
    as (db1 & job1 & db2 & job2 & H1 & _ & H2 & Hst & _).
  - by vm_compute.
  - reflexivity.
  - listed.
  - intros _. reflexivity.
  - exists db1, job1, db2, job2. repeat split; assumption.
Defined.

(** X11. Setting a job to the status it already has is accepted from an
    engineer or admin who may touch the job, and it is not a no-op: the
    history gets a row whose previous and new status are the same. *)
Theorem same_status_update_is_recorded
    (render_status : JobStatus → string) (render_role : UserRole → string)
    (now : string) (status_update : JobStatusUpdateCreate) (job_id : Z)
    (db : Db) (current_user : User) (job : RepairJob) :
  crud_job.get_job db job_id = Some job →
  su_status status_update = status job →
  role current_user ∈ [ENGINEER; ADMIN] →
  (role current_user = ENGINEER →
     engineer_id job = Some (user_id current_user)) →
  (status job = IN_TRANSIT_TO_LAB → customer_consent_for_lab job = true) →
  ∃ db' job',
    update_job_status render_status render_role now
      status_update job_id db current_user = Return db' (Some job')
    ∧ status job' = status job
    ∧ job_status_updates db'
      = (job_status_updates db
         ++ [ {| upd_job_id := job_id;
                 upd_user_id := user_id current_user;
                 previous_status := Some (status job);
                 new_status := status job;
                 notes := su_notes status_update |} ])%list.
Proof.
  intros Hjob Hsame Hstaff Hassigned Hconsent.
  destruct (update_job_status_accepts render_status render_role now
              status_update job_id db current_user job Hjob Hstaff Hassigned)
    as (db' & job' & Hret).
  { rewrite Hsame. apply same_status_allowed. }
  { rewrite Hsame. exact Hconsent. }
  destruct (update_job_status_Return _ _ _ _ _ _ _ _ _ Hret)
    as (job0 & job1 & Hjob0 & [= <-] & _ & _ & _ & _ & Hst & _
        & _ & _ & _ & Hhist).
  rewrite Hjob in Hjob0. injection Hjob0 as <-.
  exists db', job'. rewrite Hsame in Hst, Hhist. by repeat split.
Qed.

Lemma same_status_update_is_recorded_witness :
  ∃ db' job',
    update_job_status JobStatus_value UserRole_value Sample.timestamp
      {| su_status := ASSIGNED; su_notes := None;
         su_customer_consent_for_lab := None |}
      3 Sample.db Sample.admin = Return db' (Some job')
    ∧ length (job_status_updates db') = 1.
Proof.
  destruct (same_status_update_is_recorded JobStatus_value UserRole_value
              Sample.timestamp
              {| su_status := ASSIGNED; su_notes := None;
                 su_customer_consent_for_lab := None |}
              3 Sample.db Sample.admin Sample.job_assigned)
    as (db' & job' & Hret & _ & Hhist).
  - by vm_compute.
  - reflexivity.
  - listed.
  - discriminate.
  - discriminate.
  - exists db', job'. split; [assumption |]. by rewrite Hhist.
Defined.

(** X12. The status ASSIGNED does not tell that an engineer is assigned:
    an admin's status update moves a job from PENDING_ASSIGNMENT to
    ASSIGNED and leaves the engineer column as it was, null included. *)
Theorem admin_can_mark_assigned_without_engineer
    (render_status : JobStatus → string) (render_role : UserRole → string)
    (now : string) (status_update : JobStatusUpdateCreate) (job_id : Z)
    (db : Db) (current_user : User) (job : RepairJob) :
  crud_job.get_job db job_id = Some job →
  status job = PENDING_ASSIGNMENT →
  su_status status_update = ASSIGNED →
  role current_user = ADMIN →
  ∃ db' job',
    update_job_status render_status render_role now
      status_update job_id db current_user = Return db' (Some job')
    ∧ crud_job.get_job db' job_id = Some job'
    ∧ status job' = ASSIGNED
    ∧ engineer_id job' = engineer_id job.
Proof.
  intros Hjob Hst Htarget Hadmin.
  destruct (update_job_status_accepts render_status render_role now
              status_update job_id db current_user job Hjob)
    as (db' & job' & Hret).
  { rewrite Hadmin. listed. }
  { rewrite Hadmin. discriminate. }
  { rewrite Hst, Htarget, Hadmin. by vm_compute. }
  { rewrite Htarget. discriminate. }
  destruct (update_job_status_Return _ _ _ _ _ _ _ _ _ Hret)
    as (job0 & job1 & Hjob0 & [= <-] & _ & _ & _ & _ & Hst' & _
        & (_ & _ & Heng & _) & Hjobs & _).
  rewrite Hjob in Hjob0. injection Hjob0 as <-.
  exists db', job'. repeat split; try assumption.
  - unfold crud_job.get_job. rewrite Hjobs. apply lookup_insert_eq.
  - by rewrite Hst'.
Qed.

Lemma admin_can_mark_assigned_without_engineer_witness :
  ∃ db' job',
    update_job_status JobStatus_value UserRole_value Sample.timestamp
      MoreSamples.mark_assigned 7 MoreSamples.db Sample.admin
    = Return db' (Some job')
    ∧ status job' = ASSIGNED
    ∧ engineer_id job' = None.
Proof.
  destruct (admin_can_mark_assigned_without_engineer JobStatus_value
              UserRole_value Sample.timestamp
              MoreSamples.mark_assigned 7 MoreSamples.db Sample.admin
              MoreSamples.job_new)
    as (db' & job' & Hret & _ & Hst & Heng).
  - by vm_compute.
  - reflexivity.
  - reflexivity.
  - reflexivity.
  - exists db', job'. repeat split; [exact Hret | exact Hst | exact Heng].
Defined.



(** Everything an accepted assignment tells about the request. *)
Lemma assign_engineer_to_job_Return
    (render_status : JobStatus → string) (assignment_data : JobAssignment)
    (job_id : Z) (db : Db) (current_user : User)
    (db' : Db) (returned : option RepairJob) :
  assign_engineer_to_job render_status assignment_data job_id db current_user
  = Return db' returned →
  ∃ job,
    role current_user = ADMIN
    ∧ crud_job.get_job db job_id = Some job
    ∧ (status job ∉ [COMPLETED; CANCELLED])
    ∧ (truthy (ja_engineer_id assignment_data) = true →
         ∃ u, users db !! default "" (ja_engineer_id assignment_data) = Some u
              ∧ role u = ENGINEER)
    ∧ (db', returned)
      = crud_job.assign_engineer db job_id
          (ja_engineer_id assignment_data) (user_id current_user).
Proof.
  unfold assign_engineer_to_job, require_admin.
  destruct (bool_decide (role current_user ≠ ADMIN)) eqn:Hadmin;
    [discriminate |].
  destruct (crud_job.get_job db job_id) as [job |] eqn:Hjob; [| discriminate].
  destruct (bool_decide (status job ∈ [COMPLETED; CANCELLED])) eqn:Hterm;
    [discriminate |].
  intros Hret. exists job.
  split.
  { apply bool_decide_eq_false in Hadmin.
    by destruct (decide (role current_user = ADMIN)). }
  split; [reflexivity |].
  split; [by apply bool_decide_eq_false in Hterm |].
  destruct (truthy (ja_engineer_id assignment_data)) eqn:Ht.
  - destruct (users db !! default "" (ja_engineer_id assignment_data))
      as [u |] eqn:Hu; [| discriminate].
    destruct (bool_decide (role u ≠ ENGINEER)) eqn:Hrole; [discriminate |].
    split.
    + intros _. exists u. split; [reflexivity |].
      apply bool_decide_eq_false in Hrole.
      by destruct (decide (role u = ENGINEER)).
    + destruct (crud_job.assign_engineer _ _ _ _). by injection Hret as <- <-.
  - split; [discriminate |].
    destruct (crud_job.assign_engineer _ _ _ _). by injection Hret as <- <-.
Qed.





(** Out of a finished job the tables lead nowhere: an allowed target is
    the status itself. *)
Lemma terminal_only_self (r : UserRole) (s t : JobStatus) :
  s ∈ [COMPLETED; CANCELLED] →
  is_transition_allowed s t (Member r) = true → t = s.
Proof.
  intros Hterm.
  destruct s;
    try (exfalso; revert Hterm; apply (bool_decide_unpack _); vm_compute;
         exact I);
    clear; destruct r, t; vm_compute; intros H;
    first [discriminate | reflexivity].
Qed.

(** What the CRUD function for notes leaves alone. *)
Lemma crud_add_job_notes_keeps
    (now : string) (db : Db) (job_id : Z) (user note : string)
    (job : RepairJob) :
  crud_job.get_job db job_id = Some job →
  ∃ job',
    crud_job.get_job (fst (crud_job.add_job_notes now db job_id user note))
      job_id = Some job'
    ∧ status job' = status job
    ∧ customer_consent_for_lab job' = customer_consent_for_lab job
    ∧ engineer_id job' = engineer_id job
    ∧ job_status_updates (fst (crud_job.add_job_notes now db job_id user note))
      = job_status_updates db.
Proof.
  intros Hjob. unfold crud_job.add_job_notes. rewrite Hjob.
  destruct (negb (truthy (Some note))); [by exists job |].
  destruct (users db !! user) as [u |]; [| by exists job].
  destruct (bool_decide (role u = ENGINEER)); eexists; simpl;
    (split; [unfold crud_job.get_job; simpl; apply lookup_insert_eq |]);
    by repeat split.
Qed.

(** X15. A finished job keeps its status whatever is asked through the
    endpoints.  For a job in COMPLETED or CANCELLED, cancelling and
    assigning are always refused, and a status update or a note that is
    accepted leaves the status as it was. *)
Theorem terminal_status_is_absorbing
    (render_status : JobStatus → string) (render_role : UserRole → string)
    (now : string) (job_id : Z) (db : Db) (job : RepairJob)
    (current_user : User) :
  crud_job.get_job db job_id = Some job →
  status job ∈ [COMPLETED; CANCELLED] →
  (∀ status_update db' returned,
     update_job_status render_status render_role now status_update
       job_id db current_user = Return db' returned →
     ∃ job', crud_job.get_job db' job_id = Some job'
             ∧ status job' = status job)
  ∧ (∀ cancellation_data, ∃ e,
       cancel_job render_status cancellation_data job_id db current_user
       = Raise e)
  ∧ (∀ assignment_data, ∃ e,
       assign_engineer_to_job render_status assignment_data job_id db
         current_user = Raise e)
  ∧ (∀ note_data db' returned,
       add_job_notes now note_data job_id db current_user
       = Return db' returned →
       ∃ job', crud_job.get_job db' job_id = Some job'
               ∧ status job' = status job).
Proof.
  intros Hjob Hterm. repeat split.
  - intros status_update db' returned Hret.
    destruct (update_job_status_Return _ _ _ _ _ _ _ _ _ Hret)
      as (job0 & job' & Hjob0 & _ & _ & _ & Hal & _ & Hst & _ & _
          & Hjobs & _).
    rewrite Hjob in Hjob0. injection Hjob0 as <-.
    exists job'. split.
    + unfold crud_job.get_job. rewrite Hjobs. apply lookup_insert_eq.
    + rewrite Hst. by apply (terminal_only_self (role current_user)).
  - intros cancellation_data. unfold cancel_job. rewrite Hjob.
    destruct (bool_decide (role current_user = CUSTOMER) && _); [by eexists |].
    destruct (bool_decide (role current_user = ENGINEER)); [by eexists |].
    rewrite (bool_decide_eq_true_2 _ Hterm). by eexists.
  - intros assignment_data. unfold assign_engineer_to_job.
    destruct (require_admin current_user); [by eexists |].
    rewrite Hjob, (bool_decide_eq_true_2 _ Hterm). by eexists.
  - intros note_data db' returned. unfold add_job_notes.
    destruct (negb (bool_decide (role current_user ∈ _))); [discriminate |].
    rewrite Hjob.
    destruct (bool_decide (role current_user = ENGINEER) && _);
      [discriminate |].
    destruct (crud_add_job_notes_keeps now db job_id (user_id current_user)
                (jn_notes note_data) job Hjob)
      as (job' & Hget & Hst & _).
    destruct (crud_job.add_job_notes _ _ _ _ _) as [db1 j1].
    intros [= <- <-]. by exists job'.
Qed.

Lemma terminal_status_is_absorbing_witness :
  ∃ e, cancel_job JobStatus_value Sample.changed_my_mind 8 MoreSamples.db
         Sample.admin = Raise e.
Proof.
  destruct (terminal_status_is_absorbing JobStatus_value UserRole_value
              Sample.timestamp 8 MoreSamples.db MoreSamples.job_done
              Sample.admin)
    as (_ & Hcancel & _).
  - by vm_compute.
  - listed.
  - apply Hcancel.
Defined.

(** X16. The cancel operation carries out the request exactly when the job
    exists, is neither COMPLETED nor CANCELLED, and the caller is an admin
    or the customer who owns the job.  An engineer is refused with 403 for
    every job that exists, finished or not. *)
Theorem cancel_job_accepts_iff
    (render_status : JobStatus → string)
    (cancellation_data : JobCancellation) (job_id : Z) (db : Db)
    (current_user : User) :
  ((∃ db' returned,
      cancel_job render_status cancellation_data job_id db current_user
      = Return db' returned)
   ↔ ∃ job,
       crud_job.get_job db job_id = Some job
       ∧ (status job ∉ [COMPLETED; CANCELLED])
       ∧ (role current_user = ADMIN
          ∨ (role current_user = CUSTOMER
             ∧ customer_id job = user_id current_user)))
  ∧ (role current_user = ENGINEER →
     is_Some (crud_job.get_job db job_id) →
     cancel_job render_status cancellation_data job_id db current_user
     = Raise {| status_code := 403;
                detail := "Engineers cannot cancel jobs" |}).
Proof.
  split.
  - unfold cancel_job. split.
    + intros (db' & returned & Hret).
      destruct (crud_job.get_job db job_id) as [job |]; [| discriminate].
      exists job. split; [reflexivity |].
      destruct (bool_decide (role current_user = CUSTOMER)
                && bool_decide (customer_id job ≠ user_id current_user))
        eqn:Hauth; [discriminate |].
      destruct (bool_decide (role current_user = ENGINEER)) eqn:Heng;
        [discriminate |].
      destruct (bool_decide (status job ∈ [COMPLETED; CANCELLED])) eqn:Hterm;
        [discriminate |].
      split; [by apply bool_decide_eq_false in Hterm |].
      apply bool_decide_eq_false in Heng.
      destruct (role current_user) eqn:Hrole; [| by destruct Heng | by left].
      right. split; [reflexivity |].
      simpl in Hauth. apply bool_decide_eq_false in Hauth.
      by destruct (decide (customer_id job = user_id current_user)).
    + intros (job & -> & Hopen & Hwho).
      replace (bool_decide (role current_user = CUSTOMER)
               && bool_decide (customer_id job ≠ user_id current_user))
        with false.
      2: { destruct Hwho as [Ha | [_ Hown]].
           - by rewrite Ha.
           - rewrite (bool_decide_eq_false_2 (customer_id job ≠ _));
               [by rewrite andb_false_r | by intros H; apply H]. }
      rewrite (bool_decide_eq_false_2 (role current_user = ENGINEER))
        by (destruct Hwho as [Ha | [Hc _]]; congruence).
      rewrite (bool_decide_eq_false_2 _ Hopen).
      destruct (crud_job.cancel_job _ _ _ _). by eexists _, _.
  - intros Heng [job Hjob]. unfold cancel_job. rewrite Hjob, Heng.
    reflexivity.
Qed.

Lemma cancel_job_accepts_iff_witness :
  cancel_job JobStatus_value Sample.changed_my_mind 8 MoreSamples.db
    Sample.engineer
  = Raise {| status_code := 403; detail := "Engineers cannot cancel jobs" |}.
Proof.
  apply (proj2 (cancel_job_accepts_iff JobStatus_value
                  Sample.changed_my_mind 8 MoreSamples.db Sample.engineer)).
  - reflexivity.
  - exists MoreSamples.job_done. by vm_compute.
Defined.

(** X17. Adding a note (the caller is a stored engineer or admin who may
    touch the job).  A note that is not empty is appended, with its
    timestamp, to the engineer notes when the caller is an engineer and to
    the admin notes otherwise, the other field stays, and neither the
    status nor the history changes.  An empty note passes the checks of the
    endpoint too, but then nothing is written and no job is returned. *)
Theorem add_job_notes_effect
    (now : string) (note_data : JobNoteCreate) (job_id : Z) (db : Db)
    (current_user : User) (job : RepairJob) :
  crud_job.get_job db job_id = Some job →
  users db !! user_id current_user = Some current_user →
  role current_user ∈ [ENGINEER; ADMIN] →
  (role current_user = ENGINEER →
     engineer_id job = Some (user_id current_user)) →
  (jn_notes note_data = "" →
     add_job_notes now note_data job_id db current_user = Return db None)
  ∧ (jn_notes note_data ≠ "" →
     ∃ db' job',
       add_job_notes now note_data job_id db current_user
       = Return db' (Some job')
       ∧ crud_job.get_job db' job_id = Some job'
       ∧ status job' = status job
       ∧ job_status_updates db' = job_status_updates db
       ∧ (role current_user = ENGINEER →
          engineer_notes job'
          = append_note (engineer_notes job) now (jn_notes note_data)
          ∧ admin_notes job' = admin_notes job)
       ∧ (role current_user = ADMIN →
          admin_notes job'
          = append_note (admin_notes job) now (jn_notes note_data)
          ∧ engineer_notes job' = engineer_notes job)).
Proof.
  intros Hjob Huser Hstaff Hassigned.
  assert (Hshape :
    add_job_notes now note_data job_id db current_user
    = let '(db', updated_job) :=
        crud_job.add_job_notes now db job_id (user_id current_user)
          (jn_notes note_data) in
      Return db' updated_job).
  { unfold add_job_notes.
    rewrite (bool_decide_eq_true_2 _ Hstaff), Hjob.
    simpl negb. cbv iota.
    replace (bool_decide (role current_user = ENGINEER)
             && bool_decide (engineer_id job ≠ Some (user_id current_user)))
      with false; [reflexivity |].
    destruct (decide (role current_user = ENGINEER)) as [He | He].
    - rewrite (bool_decide_eq_false_2 (engineer_id job ≠ _));
        [by rewrite andb_false_r |].
      intros H. apply H. by apply Hassigned.
    - by rewrite (bool_decide_eq_false_2 _ He). }
  rewrite Hshape. unfold crud_job.add_job_notes. rewrite Hjob, Huser.
  split.
  - intros ->. reflexivity.
  - intros Hne.
    replace (negb (truthy (Some (jn_notes note_data)))) with false
      by (simpl; by rewrite (bool_decide_eq_false_2 _ Hne)).
    destruct (decide (role current_user = ENGINEER)) as [He | He].
    + rewrite (bool_decide_eq_true_2 _ He).
      eexists _, _. split; [reflexivity |].
      split; [unfold crud_job.get_job; simpl; apply lookup_insert_eq |].
      repeat split. congruence. congruence.
    + rewrite (bool_decide_eq_false_2 _ He).
      eexists _, _. split; [reflexivity |].
      split; [unfold crud_job.get_job; simpl; apply lookup_insert_eq |].
      repeat split; by intros.
Qed.

Lemma add_job_notes_effect_witness :
  add_job_notes Sample.timestamp {| jn_notes := "" |} 1 Sample.db
    Sample.engineer = Return Sample.db None.
Proof.
  apply (proj1 (add_job_notes_effect Sample.timestamp {| jn_notes := "" |}
                  1 Sample.db Sample.engineer Sample.job_pickup
                  ltac:(by vm_compute) ltac:(by vm_compute)
                  ltac:(listed) ltac:(reflexivity))).
  reflexivity.
Defined.

(** X18. Notes pile up in the order they were added.  Two notes that are
    not empty, added one after the other by a stored user who is not an
    engineer to a job without admin notes, leave the two stamped notes in
    the admin field, the first on the first line and the second on the
    next. *)
Theorem notes_accumulate_in_order
    (now1 now2 : string) (db : Db) (job_id : Z) (user : string) (u : User)
    (note1 note2 : string) (job : RepairJob) :
  crud_job.get_job db job_id = Some job →
  users db !! user = Some u →
  role u ≠ ENGINEER →
  truthy (admin_notes job) = false →
  note1 ≠ "" → note2 ≠ "" →
  ∃ job2,
    snd (crud_job.add_job_notes now2
           (fst (crud_job.add_job_notes now1 db job_id user note1))
           job_id user note2) = Some job2
    ∧ admin_notes job2
      = Some (("[" ++ now1 ++ "] " ++ note1)
              ++ newline ++ "[" ++ now2 ++ "] " ++ note2)
    ∧ engineer_notes job2 = engineer_notes job
    ∧ status job2 = status job.
Proof.
  intros Hjob Huser Hrole Hempty Hn1 Hn2.
  unfold crud_job.add_job_notes at 2. rewrite Hjob, Huser.
  replace (negb (truthy (Some note1))) with false
    by (simpl; by rewrite (bool_decide_eq_false_2 _ Hn1)).
  rewrite (bool_decide_eq_false_2 _ Hrole). simpl fst.
  unfold crud_job.add_job_notes, crud_job.get_job. simpl repair_jobs.
  rewrite lookup_insert_eq. simpl users. rewrite Huser.
  replace (negb (truthy (Some note2))) with false
    by (simpl; by rewrite (bool_decide_eq_false_2 _ Hn2)).
  rewrite (bool_decide_eq_false_2 _ Hrole).
  eexists. split; [reflexivity |]. simpl.
  repeat split.
  unfold append_note. destruct (admin_notes job) as [old |].
  - rewrite Hempty. reflexivity.
  - reflexivity.
Qed.

Lemma notes_accumulate_in_order_witness :
  ∃ job2,
    snd (crud_job.add_job_notes "t2"
           (fst (crud_job.add_job_notes "t1" Sample.db 1 "u-admin" "first"))
           1 "u-admin" "second") = Some job2
    ∧ admin_notes job2
      = Some ("[t1] first" ++ newline ++ "[t2] second").
Proof.
  destruct (notes_accumulate_in_order "t1" "t2" Sample.db 1 "u-admin"
              Sample.admin "first" "second" Sample.job_pickup)
    as (job2 & Hret & Hnotes & _);
    try discriminate; try reflexivity; try (by vm_compute).
  exists job2. split; assumption.
Defined.

(** X19. Whoever gets a request on a job carried out may also read the
    job: when the status update, the cancel operation, the notes endpoint
    or the assignment endpoint accepts a request of a user, the details
    endpoint returns the job to that user. *)
Theorem write_access_implies_read_access
    (render_status : JobStatus → string) (render_role : UserRole → string)
    (now : string) (job_id : Z) (db : Db) (current_user : User) :
  (∀ status_update db' returned,
     update_job_status render_status render_role now status_update
       job_id db current_user = Return db' returned →
     ∃ job, get_job_details job_id db current_user = inr job)
  ∧ (∀ cancellation_data db' returned,
       cancel_job render_status cancellation_data job_id db current_user
       = Return db' returned →
       ∃ job, get_job_details job_id db current_user = inr job)
  ∧ (∀ note_data db' returned,
       add_job_notes now note_data job_id db current_user
       = Return db' returned →
       ∃ job, get_job_details job_id db current_user = inr job)
  ∧ (∀ assignment_data db' returned,
       assign_engineer_to_job render_status assignment_data job_id db
         current_user = Return db' returned →
       ∃ job, get_job_details job_id db current_user = inr job).
Proof.
  assert (Hstaff_reads : ∀ job,
    crud_job.get_job db job_id = Some job →
    role current_user ≠ CUSTOMER →
    bool_decide (role current_user = ENGINEER)
    && bool_decide (engineer_id job ≠ Some (user_id current_user)) = false →
    get_job_details job_id db current_user = inr job).
  { intros job Hjob Hrole Hauth. unfold get_job_details. rewrite Hjob.
    destruct (role current_user); [by destruct Hrole | |]; [| reflexivity].
    simpl in *. by rewrite Hauth. }
  repeat split.
  - intros status_update db' returned. unfold update_job_status.
    destruct (bool_decide (role current_user ∈ [ENGINEER; ADMIN])) eqn:Hstaff;
      [| discriminate].
    destruct (crud_job.get_job db job_id) as [job |] eqn:Hjob;
      [| discriminate].
    destruct (bool_decide (role current_user = ENGINEER) && _) eqn:Hauth;
      [discriminate |].
    intros _. exists job. apply Hstaff_reads; try done.
    intros Hc. rewrite Hc in Hstaff. by vm_compute in Hstaff.
  - intros cancellation_data db' returned. unfold cancel_job, get_job_details.
    destruct (crud_job.get_job db job_id) as [job |]; [| discriminate].
    destruct (role current_user); simpl;
      [| discriminate | by exists job].
    destruct (bool_decide (customer_id job ≠ user_id current_user));
      [discriminate | by exists job].
  - intros note_data db' returned. unfold add_job_notes.
    destruct (bool_decide (role current_user ∈ [ENGINEER; ADMIN])) eqn:Hstaff;
      [| discriminate].
    destruct (crud_job.get_job db job_id) as [job |] eqn:Hjob;
      [| discriminate].
    destruct (bool_decide (role current_user = ENGINEER) && _) eqn:Hauth;
      [discriminate |].
    intros _. exists job. apply Hstaff_reads; try done.
    intros Hc. rewrite Hc in Hstaff. by vm_compute in Hstaff.
  - intros assignment_data db' returned Hret.
    destruct (assign_engineer_to_job_Return _ _ _ _ _ _ _ Hret)
      as (job & Hadmin & Hjob & _).
    exists job. unfold get_job_details. by rewrite Hjob, Hadmin.
Qed.

Lemma write_access_implies_read_access_witness :
  ∃ job, get_job_details 2 Sample.db Sample.customer = inr job.
Proof.
  destruct (write_access_implies_read_access JobStatus_value UserRole_value
              Sample.timestamp 2 Sample.db Sample.customer)
    as (_ & Hcancel & _).
  apply (Hcancel Sample.changed_my_mind
           (fst (crud_job.cancel_job Sample.db 2 "u-cust" "Changed my mind"))
           (snd (crud_job.cancel_job Sample.db 2 "u-cust" "Changed my mind"))).
  by vm_compute.
Defined.

(** X20. Looking up the user of a token never answers 403.  Whatever the
    query does, the lookup returns the user exactly when the query yields a
    row whose [is_active] is true; in every other case (the query raises,
    it finds no row, the account is inactive) the answer is the 401 with
    the invalid-credentials detail, because the handler around the body
    replaces the 403 raised for an inactive account. *)
Theorem get_user_by_id_never_403 (query : QueryOutcome) :
  (∀ u, get_user_by_id query = inr u
        ↔ ∃ row, query = QueryReturns (Some row)
                 ∧ is_active row = Some true ∧ row_user row = u)
  ∧ (∀ e, get_user_by_id query = inl e →
          e = {| status_code := 401; detail := "Invalid credentials" |})
  ∧ (∀ row, query = QueryReturns (Some row) → is_active row ≠ Some true →
            get_user_by_id query
            = inl {| status_code := 401; detail := "Invalid credentials" |}).
Proof.
  unfold get_user_by_id. repeat split.
  - destruct query as [| [row |]]; try discriminate.
    destruct (is_active row) as [[|] |] eqn:Hactive; simpl;
      try discriminate.
    intros [= <-]. by exists row.
  - intros (row & -> & -> & <-). reflexivity.
  - intros e. destruct query as [| [row |]]; try (by intros [= <-]).
    destruct (negb _); [by intros [= <-] | discriminate].
  - intros row -> Hinactive.
    destruct (is_active row) as [[|] |]; simpl; [by destruct Hinactive | |];
      reflexivity.
Qed.

Lemma get_user_by_id_never_403_witness :
  get_user_by_id (QueryReturns (Some MoreSamples.switched_off))
  = inl {| status_code := 401; detail := "Invalid credentials" |}
  ∧ get_user_by_id (QueryReturns (Some MoreSamples.never_set))
    = inl {| status_code := 401; detail := "Invalid credentials" |}.
Proof.
  split.
  - apply (proj2 (proj2 (get_user_by_id_never_403
                           (QueryReturns (Some MoreSamples.switched_off))))
             MoreSamples.switched_off);
      [reflexivity | discriminate].
  - apply (proj2 (proj2 (get_user_by_id_never_403
                           (QueryReturns (Some MoreSamples.never_set))))
             MoreSamples.never_set);
      [reflexivity | discriminate].
Defined.

(** X21. A quote update that carries both an estimated and a final cost
    (from an engineer or admin who may touch the job) passes the checks of
    the endpoint exactly while the job is being repaired, in the lab or on
    site: the two lists of statuses share nothing else.  Outside the
    statuses for the estimate, the rejection names the estimated cost. *)
Theorem quote_with_both_costs {float : Type}
    (quote_data : JobQuoteUpdate float) (job_id : Z) (db : Db)
    (current_user : User) (job : RepairJob) :
  crud_job.get_job db job_id = Some job →
  role current_user ∈ [ENGINEER; ADMIN] →
  (role current_user = ENGINEER →
     engineer_id job = Some (user_id current_user)) →
  is_Some (jq_estimated_cost quote_data) →
  is_Some (jq_final_cost quote_data) →
  (update_job_quote_checks quote_data job_id db current_user = None
   ↔ status job ∈ [REPAIR_IN_PROGRESS_LAB; REPAIR_IN_PROGRESS_ON_SITE])
  ∧ (status job ∉ [LAB_DIAGNOSIS; ON_SITE_DIAGNOSIS; PENDING_QUOTE_APPROVAL;
                   REPAIR_IN_PROGRESS_LAB; REPAIR_IN_PROGRESS_ON_SITE] →
     update_job_quote_checks quote_data job_id db current_user
     = Some {| status_code := 422;
               detail := "Estimated cost can only be set during diagnosis or repair" |}).
Proof.
  intros Hjob Hstaff Hassigned Hest Hfin.
  unfold update_job_quote_checks.
  rewrite (bool_decide_eq_true_2 _ Hstaff), Hjob.
  simpl negb. cbv iota.
  replace (bool_decide (role current_user = ENGINEER)
           && bool_decide (engineer_id job ≠ Some (user_id current_user)))
    with false.
  2: { destruct (decide (role current_user = ENGINEER)) as [He | He].
       - rewrite (bool_decide_eq_false_2 (engineer_id job ≠ _));
           [by rewrite andb_false_r |].
         intros H. apply H. by apply Hassigned.
       - by rewrite (bool_decide_eq_false_2 _ He). }
  rewrite (bool_decide_eq_true_2 _ Hest), (bool_decide_eq_true_2 _ Hfin).
  rewrite !andb_true_l.
  split.
  - rewrite <- (bool_decide_eq_true
      (status job ∈ [REPAIR_IN_PROGRESS_LAB; REPAIR_IN_PROGRESS_ON_SITE])).
    destruct (status job); vm_compute; split; intros H;
      first [exact H | reflexivity | discriminate].
  - intros Hout. by rewrite (bool_decide_eq_false_2 _ Hout).
Qed.

Lemma quote_with_both_costs_witness :
  update_job_quote_checks
    {| jq_estimated_cost := Some 120%Z;
       jq_final_cost := Some 150%Z; jq_notes := None |}
    2 Sample.db Sample.engineer = None.
Proof.
  apply (proj1 (quote_with_both_costs
                  {| jq_estimated_cost := Some 120%Z;
                     jq_final_cost := Some 150%Z; jq_notes := None |}
                  2 Sample.db Sample.engineer Sample.job_in_repair
                  ltac:(by vm_compute) ltac:(listed) ltac:(reflexivity)
                  ltac:(by eexists) ltac:(by eexists))).
  listed.
Defined.
